(** * E-com Profit Pro: the funnel and cost calculator of [App.tsx]

    A shallow embedding of the calculator core of [src/App.tsx]: the
    [results] memo (called [compute] here, as in the specification), the
    [chartData] memo ([distribute]) and the input handler
    [handleInputChange] together with the widgets that call it, then the
    reset button, the theme with its stored item, and the two expressions
    of the results panel that compute (the width of a bar, the tone of
    the profit card).

    Numbers.  A JavaScript [number] is modelled by the type [number]
    below: a rational, or one of the three non-finite values [NaN],
    [+Infinity], [-Infinity].  Arithmetic on rationals is exact and
    there is a single zero (read as [+0]).  The non-finite values follow
    the ECMAScript rules, so that the guards of the source (the clamps
    with [Math.max], the test [totalRevenue > 0], the coercion
    [parseFloat(value) || 0]) keep their meaning.

    The program computes in IEEE-754 binary64, where sums, products and
    quotients are rounded and may overflow to an infinity.  The module
    [Binary64] has the two memos again with that arithmetic, on the
    primitive floats; it is evaluated at the inputs where the program
    differs from exact arithmetic.  The properties of the last part of
    the file are stated so that rounding and overflow keep them: they
    assume nothing that an overflow could break, and conclude only on
    signs, order and the cases of the guards. *)

From Stdlib Require Import QArith Qminmax Lqa Lia Ascii String.
From stdpp Require Import list strings.
From Stdlib Require Import Floats.PrimFloat.

#[local] Set Warnings "-inexact-float".

Local Open Scope Q_scope.

(** ** JavaScript numbers *)

Inductive number : Type :=
  | NaN
  | PosInf
  | NegInf
  | Fin (q : Q).

Module JS.

(** [±Infinity * q] and [q / 0]: the sign of [q] decides, a zero gives
    [NaN]. *)
Definition scale_inf (positive : bool) (q : Q) : number :=
  match q ?= 0 with
  | Eq => NaN
  | Gt => if positive then PosInf else NegInf
  | Lt => if positive then NegInf else PosInf
  end.

(** Unary minus. *)
Definition neg (x : number) : number :=
  match x with
  | NaN => NaN
  | PosInf => NegInf
  | NegInf => PosInf
  | Fin q => Fin (- q)
  end.

(** [x + y] *)
Definition add (x y : number) : number :=
  match x, y with
  | NaN, _ | _, NaN => NaN
  | PosInf, NegInf | NegInf, PosInf => NaN
  | PosInf, _ | _, PosInf => PosInf
  | NegInf, _ | _, NegInf => NegInf
  | Fin a, Fin b => Fin (a + b)
  end.

(** [x - y] *)
Definition sub (x y : number) : number := add x (neg y).

(** [x * y] *)
Definition mul (x y : number) : number :=
  match x, y with
  | NaN, _ | _, NaN => NaN
  | Fin a, Fin b => Fin (a * b)
  | PosInf, Fin q | Fin q, PosInf => scale_inf true q
  | NegInf, Fin q | Fin q, NegInf => scale_inf false q
  | PosInf, PosInf | NegInf, NegInf => PosInf
  | PosInf, NegInf | NegInf, PosInf => NegInf
  end.

(** [x / y] *)
Definition div (x y : number) : number :=
  match x, y with
  | NaN, _ | _, NaN => NaN
  | (PosInf | NegInf), (PosInf | NegInf) => NaN
  | PosInf, Fin q => match q ?= 0 with Lt => NegInf | _ => PosInf end
  | NegInf, Fin q => match q ?= 0 with Lt => PosInf | _ => NegInf end
  | Fin _, (PosInf | NegInf) => Fin 0
  | Fin a, Fin b => if Qeq_bool b 0 then scale_inf true a else Fin (a / b)
  end.

(** [Math.max(x, y)] *)
Definition Math_max (x y : number) : number :=
  match x, y with
  | NaN, _ | _, NaN => NaN
  | PosInf, _ | _, PosInf => PosInf
  | NegInf, z | z, NegInf => z
  | Fin a, Fin b => Fin (Qmax a b)
  end.

(** [Math.min(x, y)] *)
Definition Math_min (x y : number) : number :=
  match x, y with
  | NaN, _ | _, NaN => NaN
  | NegInf, _ | _, NegInf => NegInf
  | PosInf, z | z, PosInf => z
  | Fin a, Fin b => Fin (Qmin a b)
  end.

(** [x > y] *)
Definition gt (x y : number) : bool :=
  match x, y with
  | NaN, _ | _, NaN => false
  | PosInf, PosInf => false
  | PosInf, _ => true
  | _, PosInf => false
  | NegInf, _ => false
  | Fin _, NegInf => true
  | Fin a, Fin b => match a ?= b with Gt => true | _ => false end
  end.

(** [x >= y] *)
Definition ge (x y : number) : bool :=
  match x, y with
  | NaN, _ | _, NaN => false
  | PosInf, _ => true
  | _, NegInf => true
  | _, PosInf => false
  | NegInf, _ => false
  | Fin a, Fin b => match a ?= b with Lt => false | _ => true end
  end.

(** [x <= y] *)
Definition le (x y : number) : bool := ge y x.

(** [ToBoolean(x)]: [NaN] and zero are falsy. *)
Definition truthy (x : number) : bool :=
  match x with
  | NaN => false
  | PosInf | NegInf => true
  | Fin q => negb (Qeq_bool q 0)
  end.

(** [x || y] *)
Definition or (x y : number) : number := if truthy x then x else y.

(** [Number.isFinite(x)] *)
Definition isFinite (x : number) : bool :=
  match x with Fin _ => true | _ => false end.

(** [Number.isNaN(x)] *)
Definition isNaN (x : number) : bool :=
  match x with NaN => true | _ => false end.

End JS.

Declare Scope js_scope.
Delimit Scope js_scope with js.
Bind Scope js_scope with number.
Infix "+" := JS.add : js_scope.
Infix "-" := JS.sub : js_scope.
Infix "*" := JS.mul : js_scope.
Infix "/" := JS.div : js_scope.
Infix ">?" := JS.gt (at level 70, no associativity) : js_scope.
Infix ">=?" := JS.ge (at level 70, no associativity) : js_scope.
Infix "<=?" := JS.le (at level 70, no associativity) : js_scope.
Infix "||" := JS.or : js_scope.

(** Two numbers denote the same value: the same non-finite value, or
    equal rationals. *)
Definition same_number (x y : number) : Prop :=
  match x, y with
  | NaN, NaN | PosInf, PosInf | NegInf, NegInf => True
  | Fin a, Fin b => a == b
  | _, _ => False
  end.

Infix "=#" := same_number (at level 70, no associativity).

(** ** The data model ([types.ts]) *)

Record CalculatorInputs : Type := {
  totalOrders : number;
  cancelledOverCall : number;
  rtoPercentage : number;
  sellingPrice : number;
  productCost : number;
  adCostPerOrder : number;
  adGstPercentage : number;
  shippingCost : number;
  rtoShippingCost : number;
  productDamageRtoPercentage : number;
  packingCost : number;
  miscellaneous : number
}.

Record CalculatedResults : Type := {
  orderToBeShipped : number;
  rtoCount : number;
  deliveredOrders : number;
  totalRevenue : number;
  totalProductCost : number;
  totalAdCost : number;
  totalShippingCost : number;
  totalRtoShipping : number;
  totalDamageLoss : number;
  totalPackingCost : number;
  totalMiscellaneous : number;
  totalExpenses : number;
  netProfit : number;
  profitMargin : number
}.

(** ** The calculator: the [results] memo of [App.tsx] *)

Definition compute (inputs : CalculatorInputs) : CalculatedResults :=
  let '{| totalOrders := totalOrders;
          cancelledOverCall := cancelledOverCall;
          rtoPercentage := rtoPercentage;
          sellingPrice := sellingPrice;
          productCost := productCost;
          adCostPerOrder := adCostPerOrder;
          adGstPercentage := adGstPercentage;
          shippingCost := shippingCost;
          rtoShippingCost := rtoShippingCost;
          productDamageRtoPercentage := productDamageRtoPercentage;
          packingCost := packingCost;
          miscellaneous := miscellaneous |} := inputs in
  let orderToBeShipped := JS.Math_max (Fin 0) (totalOrders - cancelledOverCall) in
  let rtoCount := (orderToBeShipped * (rtoPercentage / Fin 100))%js in
  let deliveredOrders := JS.Math_max (Fin 0) (orderToBeShipped - rtoCount) in
  let totalRevenue := (deliveredOrders * sellingPrice)%js in
  let totalProductCost := (deliveredOrders * productCost)%js in
  let totalDamageLoss :=
    (rtoCount * productCost * (productDamageRtoPercentage / Fin 100))%js in
  let totalAdCost :=
    (totalOrders * adCostPerOrder * (Fin 1 + adGstPercentage / Fin 100))%js in
  let totalShippingCost := (orderToBeShipped * shippingCost)%js in
  let totalRtoShipping := (rtoCount * rtoShippingCost)%js in
  let totalPackingCost := (orderToBeShipped * packingCost)%js in
  let totalMiscellaneous := miscellaneous in
  let totalExpenses :=
    (totalProductCost + totalAdCost + totalShippingCost +
     totalRtoShipping + totalDamageLoss + totalPackingCost +
     totalMiscellaneous)%js in
  let netProfit := (totalRevenue - totalExpenses)%js in
  let profitMargin :=
    if (totalRevenue >? Fin 0)%js
    then (netProfit / totalRevenue * Fin 100)%js
    else Fin 0 in
  {| orderToBeShipped := orderToBeShipped;
     rtoCount := rtoCount;
     deliveredOrders := deliveredOrders;
     totalRevenue := totalRevenue;
     totalProductCost := totalProductCost;
     totalAdCost := totalAdCost;
     totalShippingCost := totalShippingCost;
     totalRtoShipping := totalRtoShipping;
     totalDamageLoss := totalDamageLoss;
     totalPackingCost := totalPackingCost;
     totalMiscellaneous := totalMiscellaneous;
     totalExpenses := totalExpenses;
     netProfit := netProfit;
     profitMargin := profitMargin |}.

(** The initial state of [inputs], which [resetInputs] restores. *)
Definition defaultInputs : CalculatorInputs :=
  {| totalOrders := Fin 10;
     cancelledOverCall := Fin 0;
     rtoPercentage := Fin 10;
     sellingPrice := Fin 600;
     productCost := Fin 100;
     adCostPerOrder := Fin 100;
     adGstPercentage := Fin 18;
     shippingCost := Fin 50;
     rtoShippingCost := Fin 72;
     productDamageRtoPercentage := Fin 0;
     packingCost := Fin 10;
     miscellaneous := Fin 5 |}.

(** ** The distribution: the [chartData] memo of [App.tsx] *)

Definition COLORS : list string :=
  ["#4F46E5"; "#EF4444"; "#F59E0B"; "#10B981"; "#6366F1"; "#8B5CF6"; "#EC4899"].

(** The objects [{ name, value }] of the array [data]. *)
Module Item.
Record t : Type := { name : string; value : number }.
End Item.

(** The objects the memo returns.  [COLORS[k]] is [undefined] when [k] is
    out of range, hence the option. *)
Record ChartDatum : Type := {
  name : string;
  value : number;
  color : option string;
  percentageOfRevenue : number;
  percentageOfExpenses : number
}.

(** The array [data], in the order of its declaration. *)
Definition data (results : CalculatedResults) : list Item.t :=
  [ {| Item.name := "Product"; Item.value := totalProductCost results |};
    {| Item.name := "Ads"; Item.value := totalAdCost results |};
    {| Item.name := "Forward Shipping"; Item.value := totalShippingCost results |};
    {| Item.name := "RTO Shipping"; Item.value := totalRtoShipping results |};
    {| Item.name := "Packing"; Item.value := totalPackingCost results |};
    {| Item.name := "RTO Loss"; Item.value := totalDamageLoss results |};
    {| Item.name := "Misc"; Item.value := totalMiscellaneous results |} ].

Definition distribute (results : CalculatedResults) : list ChartDatum :=
  imap
    (fun (index : nat) (item : Item.t) =>
       {| name := Item.name item;
          value := Item.value item;
          color := COLORS !! (index mod length COLORS)%nat;
          percentageOfRevenue :=
            if (totalRevenue results >? Fin 0)%js
            then (Item.value item / totalRevenue results * Fin 100)%js
            else Fin 0;
          percentageOfExpenses :=
            if (totalExpenses results >? Fin 0)%js
            then (Item.value item / totalExpenses results * Fin 100)%js
            else Fin 0 |})
    (List.filter (fun item => (Item.value item >? Fin 0)%js) (data results)).

(** The sum of a list of numbers, added from left to right from [0]. *)
Definition sum_numbers (l : list number) : number :=
  fold_left JS.add l (Fin 0).

(** ** The calculator and the distribution in binary64

    The same two memos with the arithmetic of the machine: IEEE-754
    binary64, through the primitive floats of Rocq.  These definitions
    are evaluated on concrete inputs; they show where rounding and
    overflow make the program differ from the exact arithmetic of
    [compute] and [distribute] above. *)

Module Binary64.

(** [Math.max(x, y)] *)
Definition Math_max (x y : float) : float :=
  if (is_nan x || is_nan y)%bool then nan
  else if ltb x y then y
  else if ltb y x then x
  else if is_zero x then add x y (* two zeros: -0 only if both are *)
  else x.

(** [x > y] and [x >= y] *)
Definition gt (x y : float) : bool := ltb y x.
Definition ge (x y : float) : bool := leb y x.

Record CalculatorInputs : Type := {
  totalOrders : float;
  cancelledOverCall : float;
  rtoPercentage : float;
  sellingPrice : float;
  productCost : float;
  adCostPerOrder : float;
  adGstPercentage : float;
  shippingCost : float;
  rtoShippingCost : float;
  productDamageRtoPercentage : float;
  packingCost : float;
  miscellaneous : float
}.

Record CalculatedResults : Type := {
  orderToBeShipped : float;
  rtoCount : float;
  deliveredOrders : float;
  totalRevenue : float;
  totalProductCost : float;
  totalAdCost : float;
  totalShippingCost : float;
  totalRtoShipping : float;
  totalDamageLoss : float;
  totalPackingCost : float;
  totalMiscellaneous : float;
  totalExpenses : float;
  netProfit : float;
  profitMargin : float
}.

Definition compute (inputs : CalculatorInputs) : CalculatedResults :=
  let '{| totalOrders := totalOrders;
          cancelledOverCall := cancelledOverCall;
          rtoPercentage := rtoPercentage;
          sellingPrice := sellingPrice;
          productCost := productCost;
          adCostPerOrder := adCostPerOrder;
          adGstPercentage := adGstPercentage;
          shippingCost := shippingCost;
          rtoShippingCost := rtoShippingCost;
          productDamageRtoPercentage := productDamageRtoPercentage;
          packingCost := packingCost;
          miscellaneous := miscellaneous |} := inputs in
  let orderToBeShipped := Math_max 0 (totalOrders - cancelledOverCall) in
  let rtoCount := (orderToBeShipped * (rtoPercentage / 100))%float in
  let deliveredOrders := Math_max 0 (orderToBeShipped - rtoCount) in
  let totalRevenue := (deliveredOrders * sellingPrice)%float in
  let totalProductCost := (deliveredOrders * productCost)%float in
  let totalDamageLoss :=
    (rtoCount * productCost * (productDamageRtoPercentage / 100))%float in
  let totalAdCost :=
    (totalOrders * adCostPerOrder * (1 + adGstPercentage / 100))%float in
  let totalShippingCost := (orderToBeShipped * shippingCost)%float in
  let totalRtoShipping := (rtoCount * rtoShippingCost)%float in
  let totalPackingCost := (orderToBeShipped * packingCost)%float in
  let totalMiscellaneous := miscellaneous in
  let totalExpenses :=
    (totalProductCost + totalAdCost + totalShippingCost +
     totalRtoShipping + totalDamageLoss + totalPackingCost +
     totalMiscellaneous)%float in
  let netProfit := (totalRevenue - totalExpenses)%float in
  let profitMargin :=
    if gt totalRevenue 0
    then (netProfit / totalRevenue * 100)%float
    else 0%float in
  {| orderToBeShipped := orderToBeShipped;
     rtoCount := rtoCount;
     deliveredOrders := deliveredOrders;
     totalRevenue := totalRevenue;
     totalProductCost := totalProductCost;
     totalAdCost := totalAdCost;
     totalShippingCost := totalShippingCost;
     totalRtoShipping := totalRtoShipping;
     totalDamageLoss := totalDamageLoss;
     totalPackingCost := totalPackingCost;
     totalMiscellaneous := totalMiscellaneous;
     totalExpenses := totalExpenses;
     netProfit := netProfit;
     profitMargin := profitMargin |}.

Definition defaultInputs : CalculatorInputs :=
  {| totalOrders := 10;
     cancelledOverCall := 0;
     rtoPercentage := 10;
     sellingPrice := 600;
     productCost := 100;
     adCostPerOrder := 100;
     adGstPercentage := 18;
     shippingCost := 50;
     rtoShippingCost := 72;
     productDamageRtoPercentage := 0;
     packingCost := 10;
     miscellaneous := 5 |}.

Module Item.
Record t : Type := { name : string; value : float }.
End Item.

Record ChartDatum : Type := {
  name : string;
  value : float;
  color : option string;
  percentageOfRevenue : float;
  percentageOfExpenses : float
}.

Definition data (results : CalculatedResults) : list Item.t :=
  [ {| Item.name := "Product"; Item.value := totalProductCost results |};
    {| Item.name := "Ads"; Item.value := totalAdCost results |};
    {| Item.name := "Forward Shipping"; Item.value := totalShippingCost results |};
    {| Item.name := "RTO Shipping"; Item.value := totalRtoShipping results |};
    {| Item.name := "Packing"; Item.value := totalPackingCost results |};
    {| Item.name := "RTO Loss"; Item.value := totalDamageLoss results |};
    {| Item.name := "Misc"; Item.value := totalMiscellaneous results |} ].

Definition distribute (results : CalculatedResults) : list ChartDatum :=
  imap
    (fun (index : nat) (item : Item.t) =>
       {| name := Item.name item;
          value := Item.value item;
          color := COLORS !! (index mod length COLORS)%nat;
          percentageOfRevenue :=
            if gt (totalRevenue results) 0
            then (Item.value item / totalRevenue results * 100)%float
            else 0%float;
          percentageOfExpenses :=
            if gt (totalExpenses results) 0
            then (Item.value item / totalExpenses results * 100)%float
            else 0%float |})
    (List.filter (fun item => gt (Item.value item) 0) (data results)).

(** The seven expense components, in the order of [totalExpenses]. *)
Definition components (r : CalculatedResults) : list float :=
  [ totalProductCost r; totalAdCost r; totalShippingCost r;
    totalRtoShipping r; totalDamageLoss r; totalPackingCost r;
    totalMiscellaneous r ].

(** The sum of a list of numbers, added from left to right from [0]. *)
Definition sum_numbers (l : list float) : float :=
  fold_left add l 0%float.


(** Finite inputs at which the difference totalOrders - cancelledOverCall
    overflows. *)
Definition overflowingInputs : CalculatorInputs :=
  {| totalOrders := 1e308;
     cancelledOverCall := -1e308;
     rtoPercentage := 10;
     sellingPrice := 600;
     productCost := 100;
     adCostPerOrder := 100;
     adGstPercentage := 18;
     shippingCost := 50;
     rtoShippingCost := 72;
     productDamageRtoPercentage := 0;
     packingCost := 10;
     miscellaneous := 5 |}.

(** Small inputs, all of which the widgets can produce, at which the
    funnel does not add up. *)
Definition roundingInputs : CalculatorInputs :=
  {| totalOrders := 1;
     cancelledOverCall := 0.1;
     rtoPercentage := 8;
     sellingPrice := 600;
     productCost := 100;
     adCostPerOrder := 100;
     adGstPercentage := 18;
     shippingCost := 50;
     rtoShippingCost := 72;
     productDamageRtoPercentage := 0;
     packingCost := 10;
     miscellaneous := 5 |}.

(** Finite inputs with seven finite positive expense components whose
    sum overflows. *)
Definition hugeExpensesInputs : CalculatorInputs :=
  {| totalOrders := 10;
     cancelledOverCall := 0;
     rtoPercentage := 10;
     sellingPrice := 600;
     productCost := 100;
     adCostPerOrder := 1e307;
     adGstPercentage := 18;
     shippingCost := 50;
     rtoShippingCost := 72;
     productDamageRtoPercentage := 50;
     packingCost := 10;
     miscellaneous := 1.7e308 |}.

End Binary64.

(** ** [parseFloat]

    The ECMAScript builtin, on strings of ASCII characters: leading white
    space is skipped, the longest prefix that is a [StrDecimalLiteral] is
    read, and [NaN] is returned when there is none. *)

Module Parse.

Definition is_white_space (c : ascii) : bool :=
  let n := nat_of_ascii c in
  ((n =? 9) || (n =? 10) || (n =? 11) || (n =? 12) || (n =? 13) || (n =? 32))%nat.

Fixpoint trim_start (l : list ascii) : list ascii :=
  match l with
  | c :: l' => if is_white_space c then trim_start l' else l
  | [] => []
  end.

Definition digit_of (c : ascii) : option Z :=
  let n := nat_of_ascii c in
  if ((48 <=? n) && (n <=? 57))%nat then Some (Z.of_nat (n - 48)) else None.

(** The longest run of decimal digits at the head of [l], and the rest. *)
Fixpoint take_digits (l : list ascii) : list Z * list ascii :=
  match l with
  | c :: l' =>
      match digit_of c with
      | Some d => let '(ds, rest) := take_digits l' in (d :: ds, rest)
      | None => ([], l)
      end
  | [] => ([], [])
  end.

Definition digits_value (ds : list Z) : Z :=
  fold_left (fun acc d => 10 * acc + d)%Z ds 0%Z.

(** [ExponentPart], when the text starts with one; [0] otherwise. *)
Definition exponent (l : list ascii) : Z :=
  match l with
  | c :: l' =>
      if (nat_of_ascii c =? 101)%nat || (nat_of_ascii c =? 69)%nat then
        let '(negative, l'') :=
          match l' with
          | s :: r =>
              if (nat_of_ascii s =? 45)%nat then (true, r)
              else if (nat_of_ascii s =? 43)%nat then (false, r)
              else (false, l')
          | [] => (false, l')
          end in
        match take_digits l'' with
        | ([], _) => 0%Z
        | (ds, _) => if negative then (- digits_value ds)%Z else digits_value ds
        end
      else 0%Z
  | [] => 0%Z
  end.

(** The digits [ds] with [k] of them after the point, then the text [rest]. *)
Definition decimal (ds : list Z) (k : nat) (rest : list ascii) : number :=
  Fin (inject_Z (digits_value ds) * 10 ^ (exponent rest - Z.of_nat k)).

Definition starts_with (p l : list ascii) : bool :=
  bool_decide (take (length p) l = p).

(** [StrUnsignedDecimalLiteral] *)
Definition unsigned_literal (l : list ascii) : number :=
  if starts_with (list_ascii_of_string "Infinity") l then PosInf
  else
    match take_digits l with
    | ([], _) =>
        match l with
        | c :: r =>
            if (nat_of_ascii c =? 46)%nat then
              match take_digits r with
              | ([], _) => NaN
              | (fs, rest) => decimal fs (length fs) rest
              end
            else NaN
        | [] => NaN
        end
    | (ds, c :: r) =>
        if (nat_of_ascii c =? 46)%nat then
          let '(fs, rest) := take_digits r in
          decimal (ds ++ fs) (length fs) rest
        else decimal ds 0 (c :: r)
    | (ds, []) => decimal ds 0 []
    end.

(** [StrDecimalLiteral]: an optional sign, then the unsigned literal. *)
Definition literal (l : list ascii) : number :=
  match l with
  | c :: r =>
      if (nat_of_ascii c =? 45)%nat then JS.neg (unsigned_literal r)
      else if (nat_of_ascii c =? 43)%nat then unsigned_literal r
      else unsigned_literal l
  | [] => NaN
  end.

End Parse.

Definition parseFloat (s : string) : number :=
  Parse.literal (Parse.trim_start (list_ascii_of_string s)).

(** ** The input handler and the widgets that call it *)

(** [keyof CalculatorInputs] *)
Inductive Field : Type :=
  | F_totalOrders
  | F_cancelledOverCall
  | F_rtoPercentage
  | F_sellingPrice
  | F_productCost
  | F_adCostPerOrder
  | F_adGstPercentage
  | F_shippingCost
  | F_rtoShippingCost
  | F_productDamageRtoPercentage
  | F_packingCost
  | F_miscellaneous.

(** [inputs[field]] *)
Definition get_field (field : Field) (inputs : CalculatorInputs) : number :=
  match field with
  | F_totalOrders => totalOrders inputs
  | F_cancelledOverCall => cancelledOverCall inputs
  | F_rtoPercentage => rtoPercentage inputs
  | F_sellingPrice => sellingPrice inputs
  | F_productCost => productCost inputs
  | F_adCostPerOrder => adCostPerOrder inputs
  | F_adGstPercentage => adGstPercentage inputs
  | F_shippingCost => shippingCost inputs
  | F_rtoShippingCost => rtoShippingCost inputs
  | F_productDamageRtoPercentage => productDamageRtoPercentage inputs
  | F_packingCost => packingCost inputs
  | F_miscellaneous => miscellaneous inputs
  end.

#[global] Instance Field_eq_dec : EqDecision Field.
Proof. solve_decision. Defined.

(** [{ ...prev, [field]: v }] *)
Definition set_field (field : Field) (v : number) (prev : CalculatorInputs)
  : CalculatorInputs :=
  let pick (f : Field) : number :=
    if decide (f = field) then v else get_field f prev in
  {| totalOrders := pick F_totalOrders;
     cancelledOverCall := pick F_cancelledOverCall;
     rtoPercentage := pick F_rtoPercentage;
     sellingPrice := pick F_sellingPrice;
     productCost := pick F_productCost;
     adCostPerOrder := pick F_adCostPerOrder;
     adGstPercentage := pick F_adGstPercentage;
     shippingCost := pick F_shippingCost;
     rtoShippingCost := pick F_rtoShippingCost;
     productDamageRtoPercentage := pick F_productDamageRtoPercentage;
     packingCost := pick F_packingCost;
     miscellaneous := pick F_miscellaneous |}.

(** The argument [value: string | number] of the handler. *)
Inductive InputValue : Type :=
  | Str (s : string)
  | Num (n : number).

Definition handleInputChange (field : Field) (value : InputValue)
    (prev : CalculatorInputs) : CalculatorInputs :=
  let numValue :=
    match value with
    | Str s => (parseFloat s || Fin 0)%js
    | Num n => n
    end in
  set_field field numValue prev.

Definition resetInputs (_ : CalculatorInputs) : CalculatorInputs := defaultInputs.

(** What the user can do to [inputs]: the two buttons of the
    [CounterInput] on [totalOrders], a change of the text of an
    [InputGroup], and the reset button.  (The application has an
    [InputGroup] for ten of the fields; [Edit] is allowed on all of them
    here.) *)
Inductive Event : Type :=
  | Minus
  | Plus
  | Edit (field : Field) (text : string)
  | Reset.

Definition step (inputs : CalculatorInputs) (e : Event) : CalculatorInputs :=
  match e with
  | Minus =>
      handleInputChange F_totalOrders
        (Num (JS.Math_max (Fin 0) (totalOrders inputs - Fin 1))) inputs
  | Plus =>
      handleInputChange F_totalOrders (Num (totalOrders inputs + Fin 1)) inputs
  | Edit field text => handleInputChange field (Str text) inputs
  | Reset => resetInputs inputs
  end.

(** The state of [inputs] after a sequence of events, from the initial
    state. *)
Definition run (events : list Event) : CalculatorInputs :=
  fold_left step events defaultInputs.

(** ** Predicates on records *)

(** Every field is a real number: neither [NaN] nor infinite. *)
Definition finite_inputs (inputs : CalculatorInputs) : Prop :=
  forall field, JS.isFinite (get_field field inputs) = true.

(** No field is [NaN]. *)
Definition numeric_inputs (inputs : CalculatorInputs) : Prop :=
  forall field, JS.isNaN (get_field field inputs) = false.

(** The seven expense components, in the order of [totalExpenses]. *)
Definition components (r : CalculatedResults) : list number :=
  [ totalProductCost r; totalAdCost r; totalShippingCost r;
    totalRtoShipping r; totalDamageLoss r; totalPackingCost r;
    totalMiscellaneous r ].

(** Every field of the results is a real number. *)
Definition finite_results (r : CalculatedResults) : Prop :=
  Forall (fun x => JS.isFinite x = true)
    ([ orderToBeShipped r; rtoCount r; deliveredOrders r; totalRevenue r ]
     ++ components r ++ [ totalExpenses r; netProfit r; profitMargin r ]).

(** ** Scenarios *)

(** The inputs of scenario D: the defaults with [cancelledOverCall] = 15. *)
Definition overCancelledInputs : CalculatorInputs :=
  set_field F_cancelledOverCall (Fin 15) defaultInputs.

(** The inputs of scenario C: the defaults with [rtoPercentage] = 100. *)
Definition fullRtoInputs : CalculatorInputs :=
  set_field F_rtoPercentage (Fin 100) defaultInputs.

(** Nothing ordered and no flat expense: no component is positive. *)
Definition noExpenseInputs : CalculatorInputs :=
  set_field F_miscellaneous (Fin 0) (set_field F_totalOrders (Fin 0) defaultInputs).

(** The defaults with [productCost] = 0: the component Product drops out
    of the distribution. *)
Definition freeProductInputs : CalculatorInputs :=
  set_field F_productCost (Fin 0) defaultInputs.

(** The defaults with half of the returned products damaged: every
    expense component is positive. *)
Definition damagedReturnsInputs : CalculatorInputs :=
  set_field F_productDamageRtoPercentage (Fin 50) defaultInputs.

(** ** Views of a distribution *)

(** The names and values of the entries of a distribution. *)
Definition entries (l : list ChartDatum) : list (string * number) :=
  map (fun d => (name d, value d)) l.

(** The seven labelled components, in the order of their declaration. *)
Definition declared (r : CalculatedResults) : list (string * number) :=
  [ ("Product", totalProductCost r);
    ("Ads", totalAdCost r);
    ("Forward Shipping", totalShippingCost r);
    ("RTO Shipping", totalRtoShipping r);
    ("Packing", totalPackingCost r);
    ("RTO Loss", totalDamageLoss r);
    ("Misc", totalMiscellaneous r) ].

(** A positive real number. *)
Definition positive_real (v : number) : Prop :=
  JS.isFinite v = true /\ (v >? Fin 0)%js = true.

(** ** The rest of the view *)

(** The width, in percent, of the bar of an entry in the detailed
    breakdown: [Math.min(100, item.percentageOfRevenue * 2)]. *)
Definition barWidth (item : ChartDatum) : number :=
  JS.Math_min (Fin 100) (percentageOfRevenue item * Fin 2).

(** The two tones of the profit card and of the summary bar:
    [results.netProfit >= 0 ? indigo : red]. *)
Inductive Tone : Type := Indigo | Red.

Definition profitTone (results : CalculatedResults) : Tone :=
  if (netProfit results >=? Fin 0)%js then Indigo else Red.

(** The fields that have an [InputGroup] in the application: all but
    [totalOrders], which has the counter, and
    [productDamageRtoPercentage], which has no widget. *)
Definition has_input_group (field : Field) : bool :=
  match field with
  | F_totalOrders | F_productDamageRtoPercentage => false
  | _ => true
  end.

(** The events the application can produce. *)
Definition wired (e : Event) : bool :=
  match e with
  | Edit field _ => has_input_group field
  | Minus | Plus | Reset => true
  end.

(** The state of [inputs] after a sequence of events, from any state. *)
Definition run_from (inputs : CalculatorInputs) (events : list Event)
  : CalculatorInputs :=
  fold_left step events inputs.

(** ** The theme

    [isDarkMode] starts from [localStorage.getItem('theme') === 'dark'];
    the effect on [isDarkMode] writes the item back and paints the body,
    after the first render and after every change. *)

Record Browser : Type := {
  theme_item : option string;   (* localStorage 'theme', [None] when absent *)
  body_background : option string
}.

Definition initialDarkMode (browser : Browser) : bool :=
  bool_decide (theme_item browser = Some "dark").

Definition themeEffect (isDarkMode : bool) (browser : Browser) : Browser :=
  {| theme_item := Some (if isDarkMode then "dark" else "light");
     body_background := Some (if isDarkMode then "#0f172a" else "#FDFDFF") |}.

(** The application state that concerns the theme, with the browser. *)
Record ThemeState : Type := {
  isDarkMode : bool;
  browser : Browser
}.

(** Mounting the application in a browser. *)
Definition mount (b : Browser) : ThemeState :=
  let dark := initialDarkMode b in
  {| isDarkMode := dark; browser := themeEffect dark b |}.

(** The button of the header: [setIsDarkMode(!isDarkMode)], then the
    effect. *)
Definition toggle (st : ThemeState) : ThemeState :=
  let dark := negb (isDarkMode st) in
  {| isDarkMode := dark; browser := themeEffect dark (browser st) |}.

(** ** Auxiliary notions *)

(** Every field is a number >= 0. *)
Definition nonnegative_inputs (inputs : CalculatorInputs) : Prop :=
  forall field, (get_field field inputs >=? Fin 0)%js = true.

(** The same business at [k] times the volume: the orders, the
    cancellations and the flat expense are multiplied by [k]. *)
Definition scale_volume (k : Q) (inputs : CalculatorInputs) : CalculatorInputs :=
  set_field F_miscellaneous (Fin k * miscellaneous inputs)
    (set_field F_cancelledOverCall (Fin k * cancelledOverCall inputs)
       (set_field F_totalOrders (Fin k * totalOrders inputs) inputs)).

(** What the widgets of the application keep true of [inputs]:
    [totalOrders] is a natural number and [productDamageRtoPercentage],
    which no widget sets, is 0. *)
Definition wired_invariant (inputs : CalculatorInputs) : Prop :=
  (exists n : nat, totalOrders inputs =# Fin (inject_Z (Z.of_nat n))) /\
  productDamageRtoPercentage inputs = Fin 0.

(** The fields that are a cost or a rate on a cost. *)
Definition is_cost (field : Field) : bool :=
  match field with
  | F_productCost | F_adCostPerOrder | F_adGstPercentage | F_shippingCost
  | F_rtoShippingCost | F_productDamageRtoPercentage | F_packingCost
  | F_miscellaneous => true
  | F_totalOrders | F_cancelledOverCall | F_rtoPercentage | F_sellingPrice =>
      false
  end.

(** A number that is not negative: [NaN], or a number >= 0. *)
Definition not_negative (x : number) : Prop :=
  JS.isNaN x = true \/ (x >=? Fin 0)%js = true.

(** The amounts of money of a results record. *)
Definition amounts (r : CalculatedResults) : list number :=
  totalRevenue r :: components r ++ [ totalExpenses r; netProfit r ].

(** * Properties *)

(** ** Arithmetic on finite numbers *)

Section FiniteArithmetic.

Variables a b : Q.

Lemma add_Fin : (Fin a + Fin b)%js = Fin (a + b).
Proof. reflexivity. Qed.

Lemma sub_Fin : (Fin a - Fin b)%js = Fin (a - b).
Proof. reflexivity. Qed.

Lemma mul_Fin : (Fin a * Fin b)%js = Fin (a * b).
Proof. reflexivity. Qed.

Lemma max_Fin : JS.Math_max (Fin a) (Fin b) = Fin (Qmax a b).
Proof. reflexivity. Qed.

Lemma div_Fin : ~ b == 0 -> (Fin a / Fin b)%js = Fin (a / b).
Proof.
  intros Hb. unfold JS.div.
  destruct (Qeq_bool b 0) eqn:E; [| reflexivity].
  apply Qeq_bool_eq in E. contradiction.
Qed.

Lemma div_Fin_100 : (Fin a / Fin 100)%js = Fin (a / 100).
Proof. reflexivity. Qed.

Lemma gt_Fin : (Fin a >? Fin b)%js = true <-> b < a.
Proof.
  simpl. rewrite Qgt_alt. destruct (a ?= b); split; congruence.
Qed.

Lemma gt_Fin_false : (Fin a >? Fin b)%js = false <-> a <= b.
Proof.
  simpl. rewrite Qle_alt. destruct (a ?= b); split; congruence.
Qed.

Lemma ge_Fin : (Fin a >=? Fin b)%js = true <-> b <= a.
Proof.
  simpl. rewrite Qle_alt, <- (Qcompare_antisym a b).
  destruct (a ?= b); simpl; split; congruence.
Qed.

Lemma le_Fin : (Fin a <=? Fin b)%js = true <-> a <= b.
Proof.
  unfold JS.le. simpl. rewrite Qle_alt, <- (Qcompare_antisym b a).
  destruct (b ?= a); simpl; split; congruence.
Qed.

End FiniteArithmetic.

Create Rewrite HintDb js_fin.
#[local] Hint Rewrite add_Fin sub_Fin mul_Fin max_Fin div_Fin_100 : js_fin.

Lemma isFinite_inv (x : number) : JS.isFinite x = true -> exists q, x = Fin q.
Proof. destruct x; try discriminate. eauto. Qed.

#[global] Instance same_number_equiv : Equivalence same_number.
Proof.
  split.
  - intros []; simpl; auto. reflexivity.
  - intros [] []; simpl; auto. intros H. symmetry. exact H.
  - intros [] [] []; simpl; auto; try contradiction.
    intros H1 H2. rewrite H1. exact H2.
Qed.

(** A record of real numbers is a record of [Fin]s. *)
Lemma finite_inputs_inv (inputs : CalculatorInputs) :
  finite_inputs inputs ->
  exists t c p s pc ad gst sh rsh dmg pk misc,
    inputs =
      {| totalOrders := Fin t; cancelledOverCall := Fin c;
         rtoPercentage := Fin p; sellingPrice := Fin s;
         productCost := Fin pc; adCostPerOrder := Fin ad;
         adGstPercentage := Fin gst; shippingCost := Fin sh;
         rtoShippingCost := Fin rsh; productDamageRtoPercentage := Fin dmg;
         packingCost := Fin pk; miscellaneous := Fin misc |}.
Proof.
  intros H. destruct inputs as [t c p s pc ad gst sh rsh dmg pk misc].
  destruct (isFinite_inv _ (H F_totalOrders)) as [? Ht].
  destruct (isFinite_inv _ (H F_cancelledOverCall)) as [? Hc].
  destruct (isFinite_inv _ (H F_rtoPercentage)) as [? Hp].
  destruct (isFinite_inv _ (H F_sellingPrice)) as [? Hs].
  destruct (isFinite_inv _ (H F_productCost)) as [? Hpc].
  destruct (isFinite_inv _ (H F_adCostPerOrder)) as [? Had].
  destruct (isFinite_inv _ (H F_adGstPercentage)) as [? Hgst].
  destruct (isFinite_inv _ (H F_shippingCost)) as [? Hsh].
  destruct (isFinite_inv _ (H F_rtoShippingCost)) as [? Hrsh].
  destruct (isFinite_inv _ (H F_productDamageRtoPercentage)) as [? Hdmg].
  destruct (isFinite_inv _ (H F_packingCost)) as [? Hpk].
  destruct (isFinite_inv _ (H F_miscellaneous)) as [? Hmisc].
  simpl in *. subst. eauto 13.
Qed.

(** Unfold [compute] on a record of [Fin]s and push the arithmetic into
    the rationals. *)
Ltac compute_fin :=
  unfold compute;
  cbv beta iota zeta delta
    [orderToBeShipped rtoCount deliveredOrders totalRevenue totalProductCost
     totalAdCost totalShippingCost totalRtoShipping totalDamageLoss
     totalPackingCost totalMiscellaneous totalExpenses netProfit profitMargin
     rtoPercentage components];
  autorewrite with js_fin.

Ltac fin_inputs H :=
  let t := fresh "t" in
  let c := fresh "c" in
  let p := fresh "p" in
  let s := fresh "s" in
  let pc := fresh "pc" in
  let ad := fresh "ad" in
  let gst := fresh "gst" in
  let sh := fresh "sh" in
  let rsh := fresh "rsh" in
  let dmg := fresh "dmg" in
  let pk := fresh "pk" in
  let misc := fresh "misc" in
  destruct (finite_inputs_inv _ H)
    as (t & c & p & s & pc & ad & gst & sh & rsh & dmg & pk & misc & ->).

(** ** The calculator *)

(** C1 (scenario A).  On the default inputs, [compute] returns
    orderToBeShipped = 10, rtoCount = 1, deliveredOrders = 9,
    totalRevenue = 5400, totalProductCost = 900, totalAdCost = 1180,
    totalShippingCost = 500, totalRtoShipping = 72, totalDamageLoss = 0,
    totalPackingCost = 100, totalMiscellaneous = 5, totalExpenses = 2757,
    netProfit = 2643 and profitMargin = 2643 / 5400 * 100, a number
    between 48.94 and 48.95. *)
Theorem compute_defaults :
  let r := compute defaultInputs in
  orderToBeShipped r =# Fin 10 /\
  rtoCount r =# Fin 1 /\
  deliveredOrders r =# Fin 9 /\
  totalRevenue r =# Fin 5400 /\
  totalProductCost r =# Fin 900 /\
  totalAdCost r =# Fin 1180 /\
  totalShippingCost r =# Fin 500 /\
  totalRtoShipping r =# Fin 72 /\
  totalDamageLoss r =# Fin 0 /\
  totalPackingCost r =# Fin 100 /\
  totalMiscellaneous r =# Fin 5 /\
  totalExpenses r =# Fin 2757 /\
  netProfit r =# Fin 2643 /\
  profitMargin r =# (Fin 2643 / Fin 5400 * Fin 100)%js /\
  (profitMargin r >=? Fin 48.94)%js = true /\
  (profitMargin r <=? Fin 48.95)%js = true.
Proof.
  vm_compute. repeat split; reflexivity.
Qed.

(** C8 (scenario D).  With cancelledOverCall = 15 and totalOrders = 10,
    the other fields at their defaults, orderToBeShipped is 0 (the clamp
    of [Math.max], where the difference is -5), and rtoCount,
    deliveredOrders, totalRevenue, totalProductCost, totalShippingCost,
    totalRtoShipping, totalDamageLoss and totalPackingCost are all 0. *)
Theorem compute_over_cancellation :
  let r := compute overCancelledInputs in
  (totalOrders overCancelledInputs - cancelledOverCall overCancelledInputs)%js
    =# Fin (-5) /\
  orderToBeShipped r =# Fin 0 /\
  rtoCount r =# Fin 0 /\
  deliveredOrders r =# Fin 0 /\
  totalRevenue r =# Fin 0 /\
  totalProductCost r =# Fin 0 /\
  totalShippingCost r =# Fin 0 /\
  totalRtoShipping r =# Fin 0 /\
  totalDamageLoss r =# Fin 0 /\
  totalPackingCost r =# Fin 0.
Proof.
  vm_compute. repeat split; reflexivity.
Qed.

Lemma compute_totalExpenses (inputs : CalculatorInputs) :
  totalExpenses (compute inputs) =
    (totalProductCost (compute inputs) + totalAdCost (compute inputs) +
     totalShippingCost (compute inputs) + totalRtoShipping (compute inputs) +
     totalDamageLoss (compute inputs) + totalPackingCost (compute inputs) +
     totalMiscellaneous (compute inputs))%js.
Proof. destruct inputs. reflexivity. Qed.

(** C4.  For every inputs record, [totalExpenses] is the sum, in the
    order of the source, of the seven expense components that [compute]
    returns with it; nothing else is added. *)
Theorem totalExpenses_is_sum (inputs : CalculatorInputs) :
  let r := compute inputs in
  totalExpenses r =
    (totalProductCost r + totalAdCost r + totalShippingCost r +
     totalRtoShipping r + totalDamageLoss r + totalPackingCost r +
     totalMiscellaneous r)%js.
Proof.
  exact (compute_totalExpenses inputs).
Qed.

(** In exact arithmetic [compute] stays within the real numbers: on real
    inputs no division by zero takes place, and no [NaN] or infinity
    appears.  (In binary64 a product or a sum can overflow.) *)
Lemma compute_finite (inputs : CalculatorInputs) :
  finite_inputs inputs -> finite_results (compute inputs).
Proof.
  intros H. fin_inputs H. unfold finite_results. compute_fin.
  cbn [app]. repeat (apply Forall_cons; split; [reflexivity |]).
  apply Forall_cons; split; [| constructor].
  match goal with |- context [if ?g then _ else _] => destruct g eqn:Hg end;
    [| reflexivity].
  apply gt_Fin in Hg. rewrite div_Fin by lra. reflexivity.
Qed.

(** Outside the real numbers the guards do not help: a [NaN] or an
    infinite field reaches the funnel counts as [NaN]. *)
Remark nonfinite_inputs_propagate :
  orderToBeShipped (compute (set_field F_totalOrders NaN defaultInputs)) = NaN /\
  deliveredOrders (compute (set_field F_totalOrders PosInf defaultInputs)) = NaN.
Proof. split; reflexivity. Qed.

(** Scenarios B and C of the specification: no orders, and every shipped
    order returned. *)
Example compute_zero_orders :
  let r := compute (set_field F_totalOrders (Fin 0) defaultInputs) in
  orderToBeShipped r =# Fin 0 /\ deliveredOrders r =# Fin 0 /\
  totalRevenue r =# Fin 0 /\ totalAdCost r =# Fin 0 /\
  totalExpenses r =# Fin 5 /\ netProfit r =# Fin (-5) /\
  profitMargin r = Fin 0.
Proof. vm_compute. repeat split; reflexivity. Qed.

Example compute_full_rto :
  let r := compute fullRtoInputs in
  rtoCount r =# Fin 10 /\ deliveredOrders r =# Fin 0 /\
  totalRevenue r =# Fin 0 /\ profitMargin r = Fin 0 /\
  (totalExpenses r >? Fin 0)%js = true.
Proof. vm_compute. repeat split; reflexivity. Qed.

(** C2.  For every inputs record, [profitMargin] is
    netProfit / totalRevenue * 100 when [totalRevenue > 0] and the
    literal 0 otherwise, in particular when totalRevenue is 0: the
    quotient is only taken over a positive denominator. *)
Theorem profitMargin_guarded (inputs : CalculatorInputs) :
  let r := compute inputs in
  ((totalRevenue r >? Fin 0)%js = true ->
     profitMargin r = (netProfit r / totalRevenue r * Fin 100)%js) /\
  ((totalRevenue r >? Fin 0)%js = false -> profitMargin r = Fin 0) /\
  (totalRevenue r =# Fin 0 -> profitMargin r = Fin 0).
Proof.
  destruct inputs. cbv zeta.
  unfold compute; cbv beta iota zeta delta [totalRevenue profitMargin netProfit].
  match goal with |- context [if ?g then _ else _] => destruct g eqn:Hg end.
  - repeat split; try discriminate.
    intros H0. exfalso. revert Hg H0.
    match goal with |- (?x >? _)%js = _ -> _ => destruct x end;
      simpl; try contradiction.
    intros Hg H0. rewrite H0 in Hg. discriminate.
  - repeat split; congruence.
Qed.

Lemma profitMargin_guarded_witness :
  (totalRevenue (compute defaultInputs) >? Fin 0)%js = true /\
  profitMargin (compute defaultInputs) =
    (netProfit (compute defaultInputs) / totalRevenue (compute defaultInputs)
     * Fin 100)%js.
Proof.
  split; [reflexivity |].
  apply (proj1 (profitMargin_guarded defaultInputs)). reflexivity.
Defined.

(** In exact arithmetic the funnel is conserved: for every record of
    real numbers with 0 <= rtoPercentage <= 100, rtoCount +
    deliveredOrders is orderToBeShipped, 0 <= rtoCount <=
    orderToBeShipped, and deliveredOrders is orderToBeShipped -
    rtoCount.  In binary64 the sum is only close to orderToBeShipped. *)
Theorem funnel_conservation (inputs : CalculatorInputs) :
  finite_inputs inputs ->
  (rtoPercentage inputs >=? Fin 0)%js = true ->
  (rtoPercentage inputs <=? Fin 100)%js = true ->
  let r := compute inputs in
  (rtoCount r + deliveredOrders r)%js =# orderToBeShipped r /\
  (rtoCount r >=? Fin 0)%js = true /\
  (rtoCount r <=? orderToBeShipped r)%js = true /\
  deliveredOrders r =# (orderToBeShipped r - rtoCount r)%js.
Proof.
  intros H. fin_inputs H. cbn [rtoPercentage].
  intros Hlo%ge_Fin Hhi%le_Fin. cbv zeta. compute_fin.
  set (o := Qmax 0 (t - c)).
  assert (Ho : 0 <= o) by apply Q.le_max_l.
  assert (Hk : 0 <= p / 100 <= 1).
  { split.
    - apply Qle_shift_div_l; lra.
    - apply Qle_shift_div_r; lra. }
  set (k := p / 100) in *.
  assert (Hr0 : 0 <= o * k) by (apply Qmult_le_0_compat; tauto).
  assert (Hr1 : o * k <= o) by nra.
  assert (Hd : Qmax 0 (o - o * k) == o - o * k) by (apply Q.max_r; lra).
  repeat split.
  - simpl. rewrite Hd. ring.
  - apply ge_Fin, Hr0.
  - apply le_Fin, Hr1.
  - exact Hd.
Qed.

Lemma funnel_conservation_witness :
  finite_inputs fullRtoInputs /\
  (rtoPercentage fullRtoInputs >=? Fin 0)%js = true /\
  (rtoPercentage fullRtoInputs <=? Fin 100)%js = true /\
  (rtoCount (compute fullRtoInputs) + deliveredOrders (compute fullRtoInputs))%js
    =# orderToBeShipped (compute fullRtoInputs).
Proof.
  assert (H : finite_inputs fullRtoInputs) by (intros []; reflexivity).
  split; [exact H |]. split; [reflexivity |]. split; [reflexivity |].
  apply (funnel_conservation fullRtoInputs H); reflexivity.
Defined.

(** ** The distribution *)

Lemma filter_sublist {A : Type} (f : A -> bool) (l : list A) :
  List.filter f l `sublist_of` l.
Proof.
  induction l as [| x l IH]; simpl; [constructor |].
  destruct (f x); constructor; exact IH.
Qed.

Lemma map_imap {A B C : Type} (h : B -> C) (k : A -> C) (l : list A) :
  forall g : nat -> A -> B,
    (forall i x, h (g i x) = k x) -> map h (imap g l) = map k l.
Proof.
  induction l as [| x l IH]; intros g Hg; simpl; [reflexivity |].
  rewrite Hg. f_equal. apply IH. intros i y. apply Hg.
Qed.

Lemma entries_distribute (r : CalculatedResults) :
  entries (distribute r) =
  List.filter (fun e => (snd e >? Fin 0)%js) (declared r).
Proof.
  unfold entries, distribute.
  rewrite (map_imap _ (fun item => (Item.name item, Item.value item)))
    by reflexivity.
  change (declared r)
    with (map (fun item => (Item.name item, Item.value item)) (data r)).
  rewrite List.filter_map_swap. reflexivity.
Qed.

(** C5.  For every results record, every entry of the distribution has
    a value > 0; the entries are the declared components Product, Ads,
    Forward Shipping, RTO Shipping, Packing, RTO Loss, Misc, each with
    its own expense component as value, in that order (a sublist of the
    declaration, never re-sorted); and when no component is positive the
    distribution is the empty list. *)
Theorem distribute_positive_in_order (r : CalculatedResults) :
  Forall (fun d => (value d >? Fin 0)%js = true) (distribute r) /\
  entries (distribute r) `sublist_of`
    [ ("Product", totalProductCost r);
      ("Ads", totalAdCost r);
      ("Forward Shipping", totalShippingCost r);
      ("RTO Shipping", totalRtoShipping r);
      ("Packing", totalPackingCost r);
      ("RTO Loss", totalDamageLoss r);
      ("Misc", totalMiscellaneous r) ] /\
  (Forall (fun v => (v >? Fin 0)%js = false) (components r) ->
   distribute r = []).
Proof.
  split; [| split].
  - apply Forall_forall. intros d Hd.
    assert (He : (name d, value d) ∈ entries (distribute r)).
    { unfold entries. apply (list_elem_of_fmap_2 (fun d => (name d, value d))).
      exact Hd. }
    rewrite entries_distribute in He.
    apply list_elem_of_In, filter_In in He. exact (proj2 He).
  - rewrite entries_distribute. apply filter_sublist.
  - intros H. unfold components in H. rewrite !Forall_cons in H.
    destruct H as (H1 & H2 & H3 & H4 & H5 & H6 & H7 & _).
    unfold distribute, data. cbn [List.filter Item.value].
    rewrite H1, H2, H3, H4, H5, H6, H7. reflexivity.
Qed.

Lemma distribute_positive_in_order_witness :
  Forall (fun v => (v >? Fin 0)%js = false) (components (compute noExpenseInputs)) /\
  distribute (compute noExpenseInputs) = [].
Proof.
  assert (H : Forall (fun v => (v >? Fin 0)%js = false)
                (components (compute noExpenseInputs)))
    by (repeat constructor).
  split; [exact H |].
  exact (proj2 (proj2 (distribute_positive_in_order _)) H).
Defined.

(** C7.  The entry at position [i] (from 0) of the distribution, the
    filtered list, has the colour [COLORS[i mod 7]] of the palette of
    seven colours; that colour is defined. *)
Theorem distribute_color (r : CalculatedResults) (i : nat) (d : ChartDatum) :
  distribute r !! i = Some d ->
  length COLORS = 7%nat /\
  color d = COLORS !! (i mod 7)%nat /\
  is_Some (color d).
Proof.
  unfold distribute. rewrite list_lookup_imap.
  destruct (List.filter _ _ !! i) as [item |];
    cbn [fmap option_fmap option_map]; [| discriminate].
  intros [= <-]. cbn [color].
  split; [reflexivity |]. split; [reflexivity |].
  apply lookup_lt_is_Some.
  exact (Nat.mod_upper_bound i 7 (Nat.neq_succ_0 6)).
Qed.

Lemma distribute_color_witness :
  exists d,
    distribute (compute freeProductInputs) !! 0%nat = Some d /\
    name d = "Ads" /\
    color d = Some "#4F46E5".
Proof.
  eexists. split; [reflexivity |]. split; [reflexivity |].
  exact (proj1 (proj2 (distribute_color (compute freeProductInputs) 0 _ eq_refl))).
Defined.

(** The colour follows the position in the filtered list: when Product
    drops out, Ads moves from the second colour to the first. *)
Example color_shifts_with_filtering :
  map (fun d => (name d, color d)) (distribute (compute defaultInputs)) =
    [ ("Product", Some "#4F46E5"); ("Ads", Some "#EF4444");
      ("Forward Shipping", Some "#F59E0B"); ("RTO Shipping", Some "#10B981");
      ("Packing", Some "#6366F1"); ("Misc", Some "#8B5CF6") ] /\
  map (fun d => (name d, color d)) (distribute (compute freeProductInputs)) =
    [ ("Ads", Some "#4F46E5"); ("Forward Shipping", Some "#EF4444");
      ("RTO Shipping", Some "#F59E0B"); ("Packing", Some "#10B981");
      ("Misc", Some "#6366F1") ].
Proof. split; reflexivity. Qed.

Lemma positive_real_inv (v : number) :
  positive_real v -> exists q, v = Fin q /\ 0 < q.
Proof.
  intros [Hf Hp]. apply isFinite_inv in Hf as [q ->].
  exists q. split; [reflexivity | apply gt_Fin, Hp].
Qed.

(** When the total is the sum of seven positive components, the seven
    shares of the total add up to 100. *)
Lemma shares_sum_100 (r : CalculatedResults) :
  totalExpenses r =
    (totalProductCost r + totalAdCost r + totalShippingCost r +
     totalRtoShipping r + totalDamageLoss r + totalPackingCost r +
     totalMiscellaneous r)%js ->
  Forall positive_real (components r) ->
  length (distribute r) = 7%nat /\
  sum_numbers (map percentageOfExpenses (distribute r)) =# Fin 100.
Proof.
  destruct r as [o rc dl rev v1 v2 v3 v4 v5 v6 v7 E np pm].
  unfold components.
  cbn [totalExpenses totalProductCost totalAdCost totalShippingCost
       totalRtoShipping totalDamageLoss totalPackingCost totalMiscellaneous].
  intros HE HF. rewrite !Forall_cons in HF.
  destruct HF as (H1 & H2 & H3 & H4 & H5 & H6 & H7 & _).
  apply positive_real_inv in H1 as (q1 & -> & P1).
  apply positive_real_inv in H2 as (q2 & -> & P2).
  apply positive_real_inv in H3 as (q3 & -> & P3).
  apply positive_real_inv in H4 as (q4 & -> & P4).
  apply positive_real_inv in H5 as (q5 & -> & P5).
  apply positive_real_inv in H6 as (q6 & -> & P6).
  apply positive_real_inv in H7 as (q7 & -> & P7).
  autorewrite with js_fin in HE. subst E.
  set (E := q1 + q2 + q3 + q4 + q5 + q6 + q7).
  assert (PE : 0 < E) by (unfold E; lra).
  unfold distribute, data.
  cbn [List.filter Item.value totalProductCost totalAdCost totalShippingCost
       totalRtoShipping totalDamageLoss totalPackingCost totalMiscellaneous].
  rewrite !(proj2 (gt_Fin _ 0)) by assumption.
  cbn [imap map percentageOfExpenses totalExpenses Item.value compose length].
  split; [reflexivity |].
  rewrite (proj2 (gt_Fin E 0) PE).
  rewrite !(div_Fin _ E) by lra.
  unfold sum_numbers. cbn [fold_left].
  autorewrite with js_fin. simpl.
  unfold E in *. field. lra.
Qed.

(** In exact arithmetic the shares add up: for every record of real
    numbers for which [compute] yields seven strictly positive expense
    components, the distribution has seven entries and their
    [percentageOfExpenses] add up to 100.  In binary64 the sum is only
    close to 100, and it is 0 when the total overflows. *)
Theorem percentageOfExpenses_sum (inputs : CalculatorInputs) :
  finite_inputs inputs ->
  Forall (fun v => (v >? Fin 0)%js = true) (components (compute inputs)) ->
  length (distribute (compute inputs)) = 7%nat /\
  sum_numbers (map percentageOfExpenses (distribute (compute inputs)))
    =# Fin 100.
Proof.
  intros Hfin Hpos.
  apply shares_sum_100; [apply compute_totalExpenses |].
  pose proof (compute_finite inputs Hfin) as Hres.
  unfold finite_results in Hres.
  apply Forall_app in Hres as [_ Hres].
  apply Forall_app in Hres as [Hres _].
  rewrite Forall_forall in *. intros v Hv.
  split; [apply Hres, Hv | apply Hpos, Hv].
Qed.

Lemma percentageOfExpenses_sum_witness :
  finite_inputs damagedReturnsInputs /\
  Forall (fun v => (v >? Fin 0)%js = true)
    (components (compute damagedReturnsInputs)) /\
  sum_numbers
    (map percentageOfExpenses (distribute (compute damagedReturnsInputs)))
    =# Fin 100.
Proof.
  assert (Hfin : finite_inputs damagedReturnsInputs) by (intros []; reflexivity).
  assert (Hpos : Forall (fun v => (v >? Fin 0)%js = true)
                   (components (compute damagedReturnsInputs)))
    by (repeat constructor).
  split; [exact Hfin |]. split; [exact Hpos |].
  exact (proj2 (percentageOfExpenses_sum damagedReturnsInputs Hfin Hpos)).
Defined.

(** ** The input handler *)

Example parseFloat_examples :
  map parseFloat ["12.5"; "  42px"; "-.5e1"; "1e"; "1e3"; "0"]
    = [Fin 12.5; Fin 42; Fin (-5); Fin 1; Fin 1000; Fin 0] /\
  map parseFloat ["Infinity"; "-Infinity"] = [PosInf; NegInf] /\
  map parseFloat [""; "abc"; "."; "-"; "e5"; "--1"; "Infinit"]
    = [NaN; NaN; NaN; NaN; NaN; NaN; NaN].
Proof. repeat split; reflexivity. Qed.

Lemma get_set_field_eq (field : Field) (v : number) (prev : CalculatorInputs) :
  get_field field (set_field field v prev) = v.
Proof. destruct field; reflexivity. Qed.

Lemma get_set_field_ne (field g : Field) (v : number) (prev : CalculatorInputs) :
  g <> field -> get_field g (set_field field v prev) = get_field g prev.
Proof.
  intros Hne. destruct g; cbn [get_field set_field totalOrders cancelledOverCall
    rtoPercentage sellingPrice productCost adCostPerOrder adGstPercentage
    shippingCost rtoShippingCost productDamageRtoPercentage packingCost
    miscellaneous];
    case_decide; congruence.
Qed.

Lemma set_field_numeric (field : Field) (v : number) (prev : CalculatorInputs) :
  JS.isNaN v = false -> numeric_inputs prev ->
  numeric_inputs (set_field field v prev).
Proof.
  intros Hv Hprev g. destruct (decide (g = field)) as [-> | Hne].
  - rewrite get_set_field_eq. exact Hv.
  - rewrite get_set_field_ne by exact Hne. apply Hprev.
Qed.

Lemma or_zero_numeric (x : number) : JS.isNaN (x || Fin 0)%js = false.
Proof.
  unfold JS.or. destruct x as [| | | q]; try reflexivity.
  cbn [JS.truthy]. destruct (Qeq_bool q 0); reflexivity.
Qed.

Lemma step_numeric (inputs : CalculatorInputs) (e : Event) :
  numeric_inputs inputs -> numeric_inputs (step inputs e).
Proof.
  intros H. destruct e as [| | field text |]; cbn [step].
  - apply set_field_numeric; [| exact H].
    pose proof (H F_totalOrders) as Ht. cbn [get_field] in Ht.
    destruct (totalOrders inputs); [discriminate | reflexivity ..].
  - apply set_field_numeric; [| exact H].
    pose proof (H F_totalOrders) as Ht. cbn [get_field] in Ht.
    destruct (totalOrders inputs); [discriminate | reflexivity ..].
  - apply set_field_numeric; [apply or_zero_numeric | exact H].
  - intros []; reflexivity.
Qed.

Lemma fold_step_numeric (events : list Event) :
  forall inputs, numeric_inputs inputs ->
                 numeric_inputs (fold_left step events inputs).
Proof.
  induction events as [| e events IH]; intros inputs H; cbn [fold_left].
  - exact H.
  - apply IH, step_numeric, H.
Qed.

(** C9.  For every field and every text that [parseFloat] turns into
    [NaN], the handler stores 0 in that field and leaves the other fields
    as they were, so that [compute] reads 0 there.  Whatever the text,
    the stored value is not [NaN]; every event keeps the fields numeric,
    and after any sequence of events from the initial state no field is
    [NaN]. *)
Theorem unparseable_text_is_zero :
  (forall (field : Field) (text : string) (prev : CalculatorInputs),
      parseFloat text = NaN ->
      get_field field (handleInputChange field (Str text) prev) = Fin 0 /\
      forall g, g <> field ->
                get_field g (handleInputChange field (Str text) prev)
                = get_field g prev) /\
  (forall (field : Field) (text : string) (prev : CalculatorInputs),
      JS.isNaN (get_field field (handleInputChange field (Str text) prev))
      = false) /\
  (forall (inputs : CalculatorInputs) (e : Event),
      numeric_inputs inputs -> numeric_inputs (step inputs e)) /\
  (forall events : list Event, numeric_inputs (run events)).
Proof.
  split; [| split; [| split]].
  - intros field text prev Hnan. unfold handleInputChange. split.
    + rewrite get_set_field_eq, Hnan. reflexivity.
    + intros g Hne. apply get_set_field_ne, Hne.
  - intros field text prev. unfold handleInputChange.
    rewrite get_set_field_eq. apply or_zero_numeric.
  - intros inputs e. apply step_numeric.
  - intros events. apply fold_step_numeric. intros []; reflexivity.
Qed.

Lemma unparseable_text_is_zero_witness :
  parseFloat "abc" = NaN /\
  get_field F_sellingPrice
    (handleInputChange F_sellingPrice (Str "abc") defaultInputs) = Fin 0.
Proof.
  split; [reflexivity |].
  exact (proj1 (proj1 unparseable_text_is_zero F_sellingPrice "abc"
                  defaultInputs eq_refl)).
Defined.

(** * Further properties of the calculator *)

Lemma defaultInputs_finite : finite_inputs defaultInputs.
Proof. intros []; reflexivity. Qed.

Lemma defaultInputs_nonnegative : nonnegative_inputs defaultInputs.
Proof. intros []; reflexivity. Qed.

(** The twelve fields of a record of non-negative real numbers. *)
Lemma nonnegative_Fin_inv t c p s pc ad gst sh rsh dmg pk misc :
  nonnegative_inputs
    {| totalOrders := Fin t; cancelledOverCall := Fin c;
       rtoPercentage := Fin p; sellingPrice := Fin s;
       productCost := Fin pc; adCostPerOrder := Fin ad;
       adGstPercentage := Fin gst; shippingCost := Fin sh;
       rtoShippingCost := Fin rsh; productDamageRtoPercentage := Fin dmg;
       packingCost := Fin pk; miscellaneous := Fin misc |} ->
  (0 <= t /\ 0 <= c /\ 0 <= p /\ 0 <= s) /\
  (0 <= pc /\ 0 <= ad /\ 0 <= gst /\ 0 <= sh) /\
  (0 <= rsh /\ 0 <= dmg /\ 0 <= pk /\ 0 <= misc).
Proof.
  intros H.
  repeat split;
    [ apply (ge_Fin _ _), (H F_totalOrders)
    | apply (ge_Fin _ _), (H F_cancelledOverCall)
    | apply (ge_Fin _ _), (H F_rtoPercentage)
    | apply (ge_Fin _ _), (H F_sellingPrice)
    | apply (ge_Fin _ _), (H F_productCost)
    | apply (ge_Fin _ _), (H F_adCostPerOrder)
    | apply (ge_Fin _ _), (H F_adGstPercentage)
    | apply (ge_Fin _ _), (H F_shippingCost)
    | apply (ge_Fin _ _), (H F_rtoShippingCost)
    | apply (ge_Fin _ _), (H F_productDamageRtoPercentage)
    | apply (ge_Fin _ _), (H F_packingCost)
    | apply (ge_Fin _ _), (H F_miscellaneous) ].
Qed.

Lemma Qdiv_100_nonneg (q : Q) : 0 <= q -> 0 <= q / 100.
Proof. intros H. apply Qle_shift_div_l; lra. Qed.

Lemma Qplus_le_0_compat (a b : Q) : 0 <= a -> 0 <= b -> 0 <= a + b.
Proof. intros Ha Hb. lra. Qed.

(** Products and sums of non-negative rationals. *)
Ltac nonneg :=
  repeat first
    [ assumption
    | apply Q.le_max_l
    | apply Qdiv_100_nonneg
    | apply Qmult_le_0_compat
    | apply Qplus_le_0_compat
    | lra ].

Lemma ge_Fin_false (a b : Q) : (Fin a >=? Fin b)%js = false <-> a < b.
Proof.
  simpl. rewrite Qlt_alt. destruct (a ?= b); split; congruence.
Qed.

(** The two cases of the guarded quotient of [profitMargin]. *)
Lemma margin_cases (np rev : Q) :
  (0 < rev /\
   (if (Fin rev >? Fin 0)%js then (Fin np / Fin rev * Fin 100)%js else Fin 0)
   = Fin (np / rev * 100)) \/
  (rev <= 0 /\
   (if (Fin rev >? Fin 0)%js then (Fin np / Fin rev * Fin 100)%js else Fin 0)
   = Fin 0).
Proof.
  destruct (Fin rev >? Fin 0)%js eqn:Hg.
  - apply gt_Fin in Hg. left. split; [exact Hg |].
    rewrite div_Fin by lra. reflexivity.
  - apply gt_Fin_false in Hg. right. split; [exact Hg | reflexivity].
Qed.

Ltac margin_cases Hrev :=
  match goal with
  | |- context [if (Fin ?rev >? Fin 0)%js
                then (Fin ?np / Fin ?rev * Fin 100)%js else Fin 0] =>
      destruct (margin_cases np rev) as [[Hrev ->] | [Hrev ->]]
  end.

(** X5.  For real inputs with totalOrders, cancelledOverCall and
    rtoPercentage >= 0, the funnel narrows:
    deliveredOrders <= orderToBeShipped <= totalOrders. *)
Theorem funnel_narrows (inputs : CalculatorInputs) :
  finite_inputs inputs ->
  (totalOrders inputs >=? Fin 0)%js = true ->
  (cancelledOverCall inputs >=? Fin 0)%js = true ->
  (rtoPercentage inputs >=? Fin 0)%js = true ->
  (deliveredOrders (compute inputs) <=? orderToBeShipped (compute inputs))%js
    = true /\
  (orderToBeShipped (compute inputs) <=? totalOrders inputs)%js = true.
Proof.
  intros H. fin_inputs H.
  cbn [totalOrders cancelledOverCall rtoPercentage].
  intros Ht%ge_Fin Hc%ge_Fin Hp%ge_Fin. compute_fin.
  cbn [totalOrders].
  set (o := Qmax 0 (t - c)).
  assert (Ho : 0 <= o) by apply Q.le_max_l.
  assert (Hk : 0 <= o * (p / 100)) by nonneg.
  split; apply le_Fin.
  - apply Q.max_lub; lra.
  - apply Q.max_lub; lra.
Qed.

Lemma funnel_narrows_witness :
  (deliveredOrders (compute defaultInputs)
   <=? orderToBeShipped (compute defaultInputs))%js = true /\
  (orderToBeShipped (compute defaultInputs) <=? totalOrders defaultInputs)%js
    = true.
Proof.
  exact (funnel_narrows defaultInputs defaultInputs_finite
           eq_refl eq_refl eq_refl).
Defined.

(** X7.  For real inputs with cancelledOverCall >= totalOrders nothing
    is shipped: the three funnel counts, the revenue and the five
    expenses that follow the shipped orders are 0, the margin is 0, and
    what is left of the expenses is the advertising and the flat
    expense. *)
Theorem all_cancelled_nothing_shipped (inputs : CalculatorInputs) :
  finite_inputs inputs ->
  (cancelledOverCall inputs >=? totalOrders inputs)%js = true ->
  let r := compute inputs in
  Forall (fun v => v =# Fin 0)
    [ orderToBeShipped r; rtoCount r; deliveredOrders r; totalRevenue r;
      totalProductCost r; totalShippingCost r; totalRtoShipping r;
      totalDamageLoss r; totalPackingCost r ] /\
  profitMargin r = Fin 0 /\
  totalExpenses r =# (totalAdCost r + totalMiscellaneous r)%js.
Proof.
  intros H. fin_inputs H. cbn [cancelledOverCall totalOrders].
  intros Hc%ge_Fin. cbv zeta. compute_fin.
  assert (Ho : Qmax 0 (t - c) == 0) by (apply Q.max_l; lra).
  assert (Hd : Qmax 0 (Qmax 0 (t - c) - Qmax 0 (t - c) * (p / 100)) == 0).
  { rewrite Ho. apply Q.max_l. lra. }
  split; [| split].
  - repeat (constructor; [simpl; rewrite ?Hd, ?Ho; ring |]). constructor.
  - margin_cases Hrev; [| reflexivity].
    exfalso. rewrite Hd in Hrev. lra.
  - simpl. rewrite Hd, Ho. ring.
Qed.

Lemma all_cancelled_nothing_shipped_witness :
  profitMargin (compute overCancelledInputs) = Fin 0 /\
  totalExpenses (compute overCancelledInputs) =#
    (totalAdCost (compute overCancelledInputs)
     + totalMiscellaneous (compute overCancelledInputs))%js.
Proof.
  assert (H : finite_inputs overCancelledInputs) by (intros []; reflexivity).
  exact (proj2 (all_cancelled_nothing_shipped overCancelledInputs H eq_refl)).
Defined.

Lemma Qmax_0_scale (k a : Q) : 0 < k -> Qmax 0 (k * a) == k * Qmax 0 a.
Proof.
  intros Hk.
  destruct (Q.max_spec 0 a) as [[Ha ->] | [Ha ->]].
  - apply Q.max_r. nra.
  - rewrite Q.max_l by nra. ring.
Qed.

Lemma margin_scale (k np rev np' rev' : Q) :
  0 < k -> np' == k * np -> rev' == k * rev ->
  (if (Fin rev' >? Fin 0)%js then (Fin np' / Fin rev' * Fin 100)%js else Fin 0)
  =# (if (Fin rev >? Fin 0)%js then (Fin np / Fin rev * Fin 100)%js else Fin 0).
Proof.
  intros Hk Hnp Hrev.
  destruct (margin_cases np' rev') as [[H' ->] | [H' ->]];
    destruct (margin_cases np rev) as [[H ->] | [H ->]]; simpl.
  - rewrite Hnp, Hrev. field. split; lra.
  - exfalso. rewrite Hrev in H'. nra.
  - exfalso. rewrite Hrev in H'. nra.
  - reflexivity.
Qed.

Lemma scale_volume_Fin k t c p s pc ad gst sh rsh dmg pk misc :
  scale_volume k
    {| totalOrders := Fin t; cancelledOverCall := Fin c;
       rtoPercentage := Fin p; sellingPrice := Fin s;
       productCost := Fin pc; adCostPerOrder := Fin ad;
       adGstPercentage := Fin gst; shippingCost := Fin sh;
       rtoShippingCost := Fin rsh; productDamageRtoPercentage := Fin dmg;
       packingCost := Fin pk; miscellaneous := Fin misc |}
  = {| totalOrders := Fin (k * t); cancelledOverCall := Fin (k * c);
       rtoPercentage := Fin p; sellingPrice := Fin s;
       productCost := Fin pc; adCostPerOrder := Fin ad;
       adGstPercentage := Fin gst; shippingCost := Fin sh;
       rtoShippingCost := Fin rsh; productDamageRtoPercentage := Fin dmg;
       packingCost := Fin pk; miscellaneous := Fin (k * misc) |}.
Proof. reflexivity. Qed.

(** In exact arithmetic the calculator is homogeneous in the volume:
    for real inputs and k > 0, multiplying totalOrders, cancelledOverCall
    and the flat miscellaneous expense by k multiplies the revenue, each
    of the seven expense components, the total of the expenses and the
    profit by k, and leaves the margin as it was.  (In binary64 the
    results agree only up to rounding.) *)
Theorem volume_scales (k : Q) (inputs : CalculatorInputs) :
  finite_inputs inputs ->
  0 < k ->
  Forall2 (fun x' x => x' =# (Fin k * x)%js)
    (amounts (compute (scale_volume k inputs))) (amounts (compute inputs)) /\
  profitMargin (compute (scale_volume k inputs)) =# profitMargin (compute inputs).
Proof.
  intros H. fin_inputs H. intros Hk.
  rewrite scale_volume_Fin. unfold amounts. compute_fin. cbn [app].
  set (o := Qmax 0 (t - c)).
  assert (Ho : Qmax 0 (k * t - k * c) == k * o).
  { unfold o. rewrite <- Qmax_0_scale by exact Hk.
    apply Q.max_compat; [reflexivity | ring]. }
  set (d := Qmax 0 (o - o * (p / 100))).
  assert (Hd : Qmax 0 (k * o - k * o * (p / 100)) == k * d).
  { unfold d. rewrite <- Qmax_0_scale by exact Hk.
    apply Q.max_compat; [reflexivity | ring]. }
  split.
  - repeat (constructor; [simpl; rewrite ?Ho, ?Hd; ring |]). constructor.
  - apply (margin_scale k); [exact Hk | |]; rewrite ?Ho, ?Hd; ring.
Qed.

Lemma volume_scales_witness :
  profitMargin (compute (scale_volume 3 damagedReturnsInputs))
  =# profitMargin (compute damagedReturnsInputs).
Proof.
  assert (H : finite_inputs damagedReturnsInputs) by (intros []; reflexivity).
  assert (Hk : 0 < 3) by reflexivity.
  exact (proj2 (volume_scales 3 damagedReturnsInputs H Hk)).
Defined.

(** * Further properties of the distribution *)

Lemma distribute_length (r : CalculatedResults) : (length (distribute r) <= 7)%nat.
Proof.
  unfold distribute. rewrite length_imap.
  etransitivity; [apply List.filter_length_le | reflexivity].
Qed.

Lemma distribute_lookup (r : CalculatedResults) (i : nat) (d : ChartDatum) :
  distribute r !! i = Some d ->
  exists item,
    List.filter (fun item => (Item.value item >? Fin 0)%js) (data r) !! i
      = Some item /\
    name d = Item.name item /\
    value d = Item.value item /\
    color d = COLORS !! (i mod 7)%nat /\
    percentageOfRevenue d =
      (if (totalRevenue r >? Fin 0)%js
       then (Item.value item / totalRevenue r * Fin 100)%js else Fin 0) /\
    percentageOfExpenses d =
      (if (totalExpenses r >? Fin 0)%js
       then (Item.value item / totalExpenses r * Fin 100)%js else Fin 0).
Proof.
  unfold distribute. rewrite list_lookup_imap.
  destruct (List.filter _ _ !! i) as [item |];
    cbn [fmap option_fmap option_map]; [| discriminate].
  intros [= <-]. exists item. repeat split; reflexivity.
Qed.

Lemma COLORS_NoDup : NoDup COLORS.
Proof. apply (bool_decide_unpack _). vm_compute. exact I. Qed.

(** X9.  A declared component is shown in the distribution exactly when
    its value is > 0, and the distribution has at most seven entries. *)
Theorem distribute_shows_positive (r : CalculatedResults) (e : string * number) :
  e ∈ declared r ->
  (e ∈ entries (distribute r) <-> (snd e >? Fin 0)%js = true) /\
  (length (distribute r) <= 7)%nat.
Proof.
  intros He. split; [| apply distribute_length].
  rewrite entries_distribute, list_elem_of_In, filter_In, <- list_elem_of_In.
  tauto.
Qed.

Lemma distribute_shows_positive_witness :
  (("RTO Loss", totalDamageLoss (compute defaultInputs))
     ∈ entries (distribute (compute defaultInputs)) <->
   (totalDamageLoss (compute defaultInputs) >? Fin 0)%js = true) /\
  (length (distribute (compute defaultInputs)) <= 7)%nat.
Proof.
  apply (distribute_shows_positive (compute defaultInputs)
           ("RTO Loss", totalDamageLoss (compute defaultInputs))).
  unfold declared. rewrite !elem_of_cons. tauto.
Defined.

(** X10.  No two entries of a distribution have the same colour. *)
Theorem distribute_colors_distinct (r : CalculatedResults) :
  NoDup (map color (distribute r)).
Proof.
  apply NoDup_alt. intros i j x Hi Hj.
  change (map color (distribute r)) with (color <$> distribute r) in Hi, Hj.
  rewrite list_lookup_fmap in Hi, Hj.
  destruct (distribute r !! i) as [di |] eqn:Hdi; [| discriminate].
  destruct (distribute r !! j) as [dj |] eqn:Hdj; [| discriminate].
  cbn [fmap option_fmap option_map] in Hi, Hj.
  injection Hi as Hi. injection Hj as Hj.
  pose proof (distribute_length r) as Hlen.
  pose proof (lookup_lt_Some _ _ _ Hdi) as Hilt.
  pose proof (lookup_lt_Some _ _ _ Hdj) as Hjlt.
  apply distribute_lookup in Hdi as (_ & _ & _ & _ & Hci & _).
  apply distribute_lookup in Hdj as (_ & _ & _ & _ & Hcj & _).
  rewrite Nat.mod_small in Hci, Hcj by lia.
  assert (Hsome : is_Some (COLORS !! i)).
  { apply lookup_lt_is_Some. change (length COLORS) with 7%nat. lia. }
  destruct Hsome as [c Hc].
  apply (proj1 (NoDup_alt COLORS) COLORS_NoDup i j c); congruence.
Qed.

(** The shares of a total [T0 > 0], summed over the positive ones among
    non-negative values: the values that are filtered out are zeros. *)
Lemma shares_fold (T0 : Q) (vs : list Q) :
  0 < T0 ->
  Forall (fun v => 0 <= v) vs ->
  forall a : Q,
    fold_left JS.add
      (map (fun x => (x / Fin T0 * Fin 100)%js)
         (List.filter (fun x => (x >? Fin 0)%js) (map Fin vs)))
      (Fin a)
    =# Fin (a + fold_right Qplus 0 vs / T0 * 100).
Proof.
  intros HT. induction 1 as [| v vs Hv _ IH]; intros a.
  - cbn [map List.filter fold_left fold_right same_number]. field. lra.
  - cbn [map List.filter fold_right].
    destruct (Fin v >? Fin 0)%js eqn:Hpos.
    + cbn [map fold_left]. rewrite div_Fin by lra.
      autorewrite with js_fin. etransitivity; [apply IH |].
      cbn [same_number]. field. lra.
    + apply gt_Fin_false in Hpos.
      etransitivity; [apply IH |].
      assert (H0 : v == 0) by lra.
      cbn [same_number]. rewrite H0. field. lra.
Qed.

Lemma distribute_values (r : CalculatedResults) :
  map value (distribute r) =
  List.filter (fun x => (x >? Fin 0)%js) (map snd (declared r)).
Proof.
  rewrite List.filter_map_swap, <- entries_distribute.
  unfold entries. rewrite map_map. reflexivity.
Qed.

(** The sum of a share, over the distribution, when the components are
    non-negative real numbers. *)
Lemma shares_sum (r : CalculatedResults) (sel : ChartDatum -> number)
    (T0 : Q) (qs : list Q) :
  map snd (declared r) = map Fin qs ->
  Forall (fun v => 0 <= v) qs ->
  0 < T0 ->
  (forall d, In d (distribute r) -> sel d = (value d / Fin T0 * Fin 100)%js) ->
  sum_numbers (map sel (distribute r))
  =# Fin (fold_right Qplus 0 qs / T0 * 100).
Proof.
  intros Hdecl Hqs HT Hsel.
  rewrite (map_ext_in _ _ _ Hsel).
  rewrite <- (map_map value (fun x => (x / Fin T0 * Fin 100)%js)).
  rewrite distribute_values, Hdecl.
  unfold sum_numbers. etransitivity; [apply shares_fold; assumption |].
  cbn [same_number]. ring.
Qed.

Lemma In_distribute_shares (r : CalculatedResults) (d : ChartDatum) :
  In d (distribute r) ->
  percentageOfRevenue d =
    (if (totalRevenue r >? Fin 0)%js
     then (value d / totalRevenue r * Fin 100)%js else Fin 0) /\
  percentageOfExpenses d =
    (if (totalExpenses r >? Fin 0)%js
     then (value d / totalExpenses r * Fin 100)%js else Fin 0).
Proof.
  intros Hd. apply list_elem_of_In, list_elem_of_lookup in Hd as [i Hi].
  apply distribute_lookup in Hi as (item & _ & _ & Hv & _ & Hr & He).
  rewrite Hv. split; assumption.
Qed.

(** How [compute] ties the last three fields to the others. *)
Lemma compute_shape (inputs : CalculatorInputs) :
  let r := compute inputs in
  netProfit r = (totalRevenue r - totalExpenses r)%js /\
  profitMargin r =
    (if (totalRevenue r >? Fin 0)%js
     then (netProfit r / totalRevenue r * Fin 100)%js else Fin 0).
Proof. destruct inputs. split; reflexivity. Qed.

(** A non-negative real number. *)
Lemma nonnegative_real_inv (v : number) :
  JS.isFinite v = true -> (v >=? Fin 0)%js = true ->
  exists q, v = Fin q /\ 0 <= q.
Proof.
  intros Hf Hp. apply isFinite_inv in Hf as [q ->].
  exists q. split; [reflexivity | apply ge_Fin, Hp].
Qed.

(** The components of a record, as rationals, in the order of
    [declared]. *)
Lemma components_nonnegative_inv (r : CalculatedResults) :
  Forall (fun v => JS.isFinite v = true) (components r) ->
  Forall (fun v => (v >=? Fin 0)%js = true) (components r) ->
  exists q1 q2 q3 q4 q5 q6 q7,
    components r = map Fin [q1; q2; q3; q4; q5; q6; q7] /\
    map snd (declared r) = map Fin [q1; q2; q3; q4; q6; q5; q7] /\
    Forall (fun v => 0 <= v) [q1; q2; q3; q4; q6; q5; q7].
Proof.
  unfold components, declared. intros Hf Hp.
  rewrite !Forall_cons in Hf, Hp.
  destruct Hf as (F1 & F2 & F3 & F4 & F5 & F6 & F7 & _).
  destruct Hp as (P1 & P2 & P3 & P4 & P5 & P6 & P7 & _).
  destruct (nonnegative_real_inv _ F1 P1) as (q1 & -> & ?).
  destruct (nonnegative_real_inv _ F2 P2) as (q2 & -> & ?).
  destruct (nonnegative_real_inv _ F3 P3) as (q3 & -> & ?).
  destruct (nonnegative_real_inv _ F4 P4) as (q4 & -> & ?).
  destruct (nonnegative_real_inv _ F5 P5) as (q5 & -> & ?).
  destruct (nonnegative_real_inv _ F6 P6) as (q6 & -> & ?).
  destruct (nonnegative_real_inv _ F7 P7) as (q7 & -> & ?).
  exists q1, q2, q3, q4, q5, q6, q7.
  split; [reflexivity |]. split; [reflexivity |].
  repeat (constructor; [assumption |]). constructor.
Qed.

Lemma compute_components_finite (inputs : CalculatorInputs) :
  finite_inputs inputs ->
  Forall (fun v => JS.isFinite v = true) (components (compute inputs)) /\
  JS.isFinite (totalRevenue (compute inputs)) = true.
Proof.
  intros H. pose proof (compute_finite inputs H) as Hres.
  unfold finite_results in Hres. split.
  - apply Forall_app in Hres as [_ Hres].
    apply Forall_app in Hres as [Hres _]. exact Hres.
  - cbn [app] in Hres. rewrite !Forall_cons in Hres. tauto.
Qed.

Lemma defaultInputs_components_nonnegative :
  Forall (fun v => (v >=? Fin 0)%js = true) (components (compute defaultInputs)).
Proof. repeat constructor. Qed.

(** In exact arithmetic, for real inputs whose seven expense components
    are all >= 0 and whose total of expenses is > 0, the
    [percentageOfExpenses] of the entries of the distribution add up to
    100: the components that are left out are zeros.  (In binary64 the
    sum is only close to 100.) *)
Theorem expense_shares_sum_to_100 (inputs : CalculatorInputs) :
  finite_inputs inputs ->
  Forall (fun v => (v >=? Fin 0)%js = true) (components (compute inputs)) ->
  (totalExpenses (compute inputs) >? Fin 0)%js = true ->
  sum_numbers (map percentageOfExpenses (distribute (compute inputs)))
  =# Fin 100.
Proof.
  intros Hfin Hnn HE.
  destruct (compute_components_finite inputs Hfin) as [Hcf _].
  destruct (components_nonnegative_inv _ Hcf Hnn)
    as (q1 & q2 & q3 & q4 & q5 & q6 & q7 & Hc & Hd & Hq).
  pose proof (compute_totalExpenses inputs) as Htot.
  unfold components in Hc. cbn [map] in Hc.
  injection Hc as H1 H2 H3 H4 H5 H6 H7.
  rewrite H1, H2, H3, H4, H5, H6, H7 in Htot.
  autorewrite with js_fin in Htot.
  rewrite Htot in HE. apply gt_Fin in HE.
  etransitivity.
  - apply (shares_sum _ percentageOfExpenses
             (q1 + q2 + q3 + q4 + q5 + q6 + q7) _ Hd Hq HE).
    intros d Hin. apply In_distribute_shares in Hin as [_ Hin].
    rewrite Hin, Htot, (proj2 (gt_Fin _ 0) HE). reflexivity.
  - cbn [same_number fold_right]. field. lra.
Qed.

Lemma expense_shares_sum_to_100_witness :
  sum_numbers (map percentageOfExpenses (distribute (compute defaultInputs)))
  =# Fin 100.
Proof.
  exact (expense_shares_sum_to_100 defaultInputs defaultInputs_finite
           defaultInputs_components_nonnegative eq_refl).
Defined.

(** In exact arithmetic, for real inputs whose seven expense components
    are all >= 0 and whose revenue is > 0, the [percentageOfRevenue] of
    the entries of the distribution and the margin add up to 100.  (In
    binary64 the sum is only close to 100.) *)
Theorem revenue_shares_and_margin (inputs : CalculatorInputs) :
  finite_inputs inputs ->
  Forall (fun v => (v >=? Fin 0)%js = true) (components (compute inputs)) ->
  (totalRevenue (compute inputs) >? Fin 0)%js = true ->
  (sum_numbers (map percentageOfRevenue (distribute (compute inputs)))
   + profitMargin (compute inputs))%js
  =# Fin 100.
Proof.
  intros Hfin Hnn HR.
  destruct (compute_components_finite inputs Hfin) as [Hcf Hrf].
  destruct (components_nonnegative_inv _ Hcf Hnn)
    as (q1 & q2 & q3 & q4 & q5 & q6 & q7 & Hc & Hd & Hq).
  pose proof (compute_totalExpenses inputs) as Htot.
  destruct (compute_shape inputs) as [Hnp Hpm].
  unfold components in Hc. cbn [map] in Hc.
  injection Hc as H1 H2 H3 H4 H5 H6 H7.
  rewrite H1, H2, H3, H4, H5, H6, H7 in Htot.
  autorewrite with js_fin in Htot.
  apply isFinite_inv in Hrf as [R HRev].
  rewrite HRev in HR. pose proof (proj1 (gt_Fin _ _) HR) as HRpos.
  rewrite Hpm, Hnp, HRev, Htot, HR.
  rewrite sub_Fin, div_Fin by lra. autorewrite with js_fin.
  assert (Hsum :
    sum_numbers (map percentageOfRevenue (distribute (compute inputs)))
    =# Fin (fold_right Qplus 0 [q1; q2; q3; q4; q6; q5; q7] / R * 100)).
  { apply (shares_sum _ percentageOfRevenue R _ Hd Hq HRpos).
    intros d Hin. apply In_distribute_shares in Hin as [Hin _].
    rewrite Hin, HRev, HR. reflexivity. }
  destruct (sum_numbers _) as [| | | x]; cbn [same_number] in Hsum;
    try contradiction.
  autorewrite with js_fin. cbn [same_number fold_right] in *.
  rewrite Hsum. field. lra.
Qed.

Lemma revenue_shares_and_margin_witness :
  (sum_numbers (map percentageOfRevenue (distribute (compute defaultInputs)))
   + profitMargin (compute defaultInputs))%js
  =# Fin 100.
Proof.
  exact (revenue_shares_and_margin defaultInputs defaultInputs_finite
           defaultInputs_components_nonnegative eq_refl).
Defined.

Lemma In_distribute_value (r : CalculatedResults) (d : ChartDatum) :
  In d (distribute r) ->
  In (value d) (components r) /\ (value d >? Fin 0)%js = true.
Proof.
  intros Hd. apply (in_map value) in Hd.
  rewrite distribute_values in Hd. apply filter_In in Hd as [Hin Hpos].
  split; [| exact Hpos].
  unfold declared in Hin. unfold components. cbn [map snd In] in *. tauto.
Qed.

(** * Further properties of the input handler *)

Lemma inputs_ext (a b : CalculatorInputs) :
  (forall field, get_field field a = get_field field b) -> a = b.
Proof.
  intros H. destruct a, b.
  pose proof (H F_totalOrders). pose proof (H F_cancelledOverCall).
  pose proof (H F_rtoPercentage). pose proof (H F_sellingPrice).
  pose proof (H F_productCost). pose proof (H F_adCostPerOrder).
  pose proof (H F_adGstPercentage). pose proof (H F_shippingCost).
  pose proof (H F_rtoShippingCost). pose proof (H F_productDamageRtoPercentage).
  pose proof (H F_packingCost). pose proof (H F_miscellaneous).
  cbn [get_field totalOrders cancelledOverCall rtoPercentage sellingPrice
       productCost adCostPerOrder adGstPercentage shippingCost rtoShippingCost
       productDamageRtoPercentage packingCost miscellaneous] in *.
  congruence.
Qed.

Lemma get_set_field (field g : Field) (v : number) (prev : CalculatorInputs) :
  get_field g (set_field field v prev) =
  if decide (g = field) then v else get_field g prev.
Proof.
  case_decide as Hg.
  - subst g. apply get_set_field_eq.
  - apply get_set_field_ne, Hg.
Qed.

(** X14.  The handler changes the field it is given and no other; a
    second change of the same field replaces the first, and changes of
    two different fields can be made in either order. *)
Theorem handleInputChange_one_field (field : Field) (value : InputValue)
    (prev : CalculatorInputs) :
  (forall g, g <> field ->
     get_field g (handleInputChange field value prev) = get_field g prev) /\
  (forall value',
     handleInputChange field value' (handleInputChange field value prev)
     = handleInputChange field value' prev) /\
  (forall g w, g <> field ->
     handleInputChange field value (handleInputChange g w prev)
     = handleInputChange g w (handleInputChange field value prev)).
Proof.
  split; [| split].
  - intros g Hg. unfold handleInputChange. apply get_set_field_ne, Hg.
  - intros value'. unfold handleInputChange. apply inputs_ext. intros f.
    rewrite !get_set_field. case_decide; reflexivity.
  - intros g w Hg. unfold handleInputChange. apply inputs_ext. intros f.
    rewrite !get_set_field. repeat case_decide; congruence.
Qed.

Lemma handleInputChange_one_field_witness :
  handleInputChange F_sellingPrice (Str "750")
    (handleInputChange F_packingCost (Str "12") defaultInputs)
  = handleInputChange F_packingCost (Str "12")
      (handleInputChange F_sellingPrice (Str "750") defaultInputs).
Proof.
  apply (handleInputChange_one_field F_sellingPrice (Str "750") defaultInputs).
  discriminate.
Defined.

Lemma totalOrders_set_field (v : number) (prev : CalculatorInputs) :
  totalOrders (set_field F_totalOrders v prev) = v.
Proof. reflexivity. Qed.

(** X15.  The minus button of the counter never takes totalOrders below
    0: whatever number it holds, not [NaN], the result is >= 0, and from
    a real number <= 1 the result is 0. *)
Theorem counter_minus_clamped (inputs : CalculatorInputs) :
  JS.isNaN (totalOrders inputs) = false ->
  (totalOrders (step inputs Minus) >=? Fin 0)%js = true /\
  ((totalOrders inputs <=? Fin 1)%js = true ->
   totalOrders (step inputs Minus) =# Fin 0).
Proof.
  intros Hn. cbn [step]. unfold handleInputChange.
  rewrite totalOrders_set_field.
  destruct (totalOrders inputs) as [| | | q]; try discriminate.
  - split; [reflexivity | discriminate].
  - split; reflexivity.
  - autorewrite with js_fin. split.
    + apply ge_Fin, Q.le_max_l.
    + intros Hq%le_Fin. cbn [same_number]. apply Q.max_l. lra.
Qed.

Lemma counter_minus_clamped_witness :
  (totalOrders (step noExpenseInputs Minus) >=? Fin 0)%js = true /\
  totalOrders (step noExpenseInputs Minus) =# Fin 0.
Proof.
  destruct (counter_minus_clamped noExpenseInputs eq_refl) as [H1 H2].
  split; [exact H1 | exact (H2 eq_refl)].
Defined.

Lemma inject_nat_succ (n : nat) :
  inject_Z (Z.of_nat (S n)) == inject_Z (Z.of_nat n) + 1.
Proof.
  rewrite Nat2Z.inj_succ, <- Z.add_1_r, inject_Z_plus. reflexivity.
Qed.

Lemma inject_nat_nonneg (n : nat) : 0 <= inject_Z (Z.of_nat n).
Proof. unfold Qle. simpl. lia. Qed.

Lemma has_input_group_ne (field : Field) :
  has_input_group field = true ->
  F_totalOrders <> field /\ F_productDamageRtoPercentage <> field.
Proof. destruct field; simpl; intros H; split; congruence. Qed.

Lemma wired_step_invariant (inputs : CalculatorInputs) (e : Event) :
  wired e = true -> wired_invariant inputs -> wired_invariant (step inputs e).
Proof.
  intros He [[n Hn] Hd]. destruct e as [| | field text |]; cbn [step].
  - unfold handleInputChange. split; [| exact Hd].
    rewrite totalOrders_set_field.
    destruct (totalOrders inputs) as [| | | q]; cbn [same_number] in Hn;
      try contradiction.
    autorewrite with js_fin. destruct n as [| m].
    + exists 0%nat. cbn [same_number]. change (inject_Z (Z.of_nat 0)) with 0 in *.
      apply Q.max_l. lra.
    + exists m. cbn [same_number]. rewrite inject_nat_succ in Hn.
      pose proof (inject_nat_nonneg m). rewrite Q.max_r by lra. lra.
  - unfold handleInputChange. split; [| exact Hd].
    rewrite totalOrders_set_field.
    destruct (totalOrders inputs) as [| | | q]; cbn [same_number] in Hn;
      try contradiction.
    exists (S n). autorewrite with js_fin. cbn [same_number].
    rewrite inject_nat_succ, Hn. reflexivity.
  - cbn [wired] in He. apply has_input_group_ne in He as [Ht Hp].
    unfold handleInputChange. split.
    + exists n.
      change (totalOrders ?x) with (get_field F_totalOrders x).
      rewrite get_set_field_ne by exact Ht. exact Hn.
    + change (productDamageRtoPercentage ?x)
        with (get_field F_productDamageRtoPercentage x).
      rewrite get_set_field_ne by exact Hp. exact Hd.
  - split; [exists 10%nat |]; reflexivity.
Qed.

Lemma wired_run_invariant (events : list Event) :
  forallb wired events = true ->
  forall inputs, wired_invariant inputs ->
                 wired_invariant (fold_left step events inputs).
Proof.
  induction events as [| e events IH]; cbn [forallb fold_left];
    intros Hw inputs Hinv; [exact Hinv |].
  apply andb_prop in Hw as [He Hw].
  apply IH; [exact Hw |]. apply wired_step_invariant; assumption.
Qed.

(** With no damaged returns the damage loss is never positive, whatever
    the other fields hold. *)
Lemma no_damage_no_loss (inputs : CalculatorInputs) :
  productDamageRtoPercentage inputs = Fin 0 ->
  (totalDamageLoss (compute inputs) >? Fin 0)%js = false.
Proof.
  destruct inputs as [t c p s pc ad gst sh rsh dmg pk misc].
  cbn [productDamageRtoPercentage]. intros ->.
  unfold compute. cbn [totalDamageLoss].
  match goal with
  | |- ((?z * _)%js >? _)%js = false => destruct z as [| | | q]
  end; try reflexivity.
  autorewrite with js_fin. apply gt_Fin_false.
  assert (H0 : q * (0 / 100) == 0) by (unfold Qdiv; ring).
  rewrite H0. lra.
Qed.

(** X17.  In the application, where totalOrders is only set by the
    counter and productDamageRtoPercentage by nothing, after any sequence
    of events totalOrders is a natural number, productDamageRtoPercentage
    is 0, the damage loss is not positive, and the distribution has no
    entry RTO Loss. *)
Theorem wired_app_invariant (events : list Event) :
  forallb wired events = true ->
  wired_invariant (run events) /\
  (totalDamageLoss (compute (run events)) >? Fin 0)%js = false /\
  Forall (fun d => name d <> "RTO Loss") (distribute (compute (run events))).
Proof.
  intros Hw.
  assert (Hinv : wired_invariant (run events)).
  { apply wired_run_invariant; [exact Hw |].
    split; [exists 10%nat |]; reflexivity. }
  pose proof (no_damage_no_loss _ (proj2 Hinv)) as Hloss.
  split; [exact Hinv |]. split; [exact Hloss |].
  apply List.Forall_forall. intros d Hd Hname.
  assert (He : In (name d, value d) (entries (distribute (compute (run events))))).
  { unfold entries. apply (in_map (fun d => (name d, value d))), Hd. }
  rewrite entries_distribute in He. apply filter_In in He as [Hin Hpos].
  cbn [snd] in Hpos. rewrite Hname in Hin. unfold declared in Hin.
  cbn [In] in Hin.
  destruct Hin as [H | [H | [H | [H | [H | [H | [H | []]]]]]]];
    try discriminate H.
  injection H as Hv. rewrite <- Hv, Hloss in Hpos. discriminate.
Qed.

Lemma wired_app_invariant_witness :
  Forall (fun d => name d <> "RTO Loss")
    (distribute
       (compute (run [Plus; Edit F_rtoPercentage "35"; Minus; Minus;
                      Edit F_productCost "x"; Reset; Plus]))).
Proof.
  exact (proj2 (proj2 (wired_app_invariant
    [Plus; Edit F_rtoPercentage "35"; Minus; Minus;
     Edit F_productCost "x"; Reset; Plus] eq_refl))).
Defined.

(** * The theme *)

Lemma initialDarkMode_themeEffect (dark : bool) (b : Browser) :
  initialDarkMode (themeEffect dark b) = dark.
Proof. destruct dark; reflexivity. Qed.

Lemma toggles_browser (n : nat) (b : Browser) :
  browser (Nat.iter n toggle (mount b))
  = themeEffect (isDarkMode (Nat.iter n toggle (mount b))) b.
Proof. destruct n; reflexivity. Qed.

(** X18.  The theme survives a reload.  After mounting in any browser
    and any number of clicks on the theme button, the stored item is
    dark or light as the mode is, the body has the colour of the mode,
    and mounting again in that browser gives the same state.  The first
    mount is dark only when the stored item is dark: a missing or
    unknown item gives the light mode.  Two clicks give the state back. *)
Theorem theme_survives_reload (b : Browser) (n : nat) :
  let st := Nat.iter n toggle (mount b) in
  theme_item (browser st) = Some (if isDarkMode st then "dark" else "light") /\
  body_background (browser st)
    = Some (if isDarkMode st then "#0f172a" else "#FDFDFF") /\
  mount (browser st) = st /\
  (isDarkMode (mount b) = true <-> theme_item b = Some "dark") /\
  toggle (toggle st) = st.
Proof.
  cbv zeta. split; [| split; [| split; [| split]]].
  - rewrite toggles_browser. reflexivity.
  - rewrite toggles_browser. reflexivity.
  - pose proof (toggles_browser n b) as Hb.
    destruct (Nat.iter n toggle (mount b)) as [dark b'].
    cbn [browser isDarkMode] in *. subst b'.
    unfold mount. rewrite initialDarkMode_themeEffect. reflexivity.
  - unfold mount, initialDarkMode. cbn [isDarkMode].
    apply bool_decide_eq_true.
  - pose proof (toggles_browser n b) as Hb.
    destruct (Nat.iter n toggle (mount b)) as [dark b'].
    cbn [browser isDarkMode] in *. subst b'.
    unfold toggle. cbn [isDarkMode browser]. rewrite negb_involutive.
    reflexivity.
Qed.

(** * Reset *)

(** X19.  The reset button forgets the history: whatever happened
    before it, the inputs after it are those of a fresh application that
    saw only the later events. *)
Theorem reset_forgets_history (before after : list Event) :
  run (before ++ Reset :: after) = run after /\
  run (before ++ [Reset]) = defaultInputs.
Proof.
  unfold run. rewrite !fold_left_app. split; reflexivity.
Qed.

Lemma Qdiv_100_le (a b : Q) : a <= b -> a / 100 <= b / 100.
Proof.
  intros H. unfold Qdiv. apply Qmult_le_compat_r; [exact H | discriminate].
Qed.

(** Evaluate an update of a record that is written out. *)
Ltac eval_set_field :=
  match goal with
  | |- context [set_field ?f ?v ?r] =>
      let x := eval vm_compute in (set_field f v r) in
      change (set_field f v r) with x
  end.


(** * Rounding and overflow

    The program evaluated in binary64 at finite inputs where an overflow
    or a rounding error breaks what exact arithmetic satisfies, and the
    statements that survive: they rest on the cases of [Math.max], of
    the comparisons and of the guards, and on signs and order, which
    rounding keeps. *)

Lemma not_negative_cases (x : number) :
  not_negative x <->
  match x with
  | NaN | PosInf => True
  | NegInf => False
  | Fin q => 0 <= q
  end.
Proof.
  unfold not_negative. destruct x as [| | | q].
  - split; auto.
  - split; auto.
  - split; [intros [H | H]; discriminate | contradiction].
  - rewrite ge_Fin. split; [intros [H | H]; [discriminate | exact H] | auto].
Qed.

Lemma not_negative_max0 (x : number) : not_negative (JS.Math_max (Fin 0) x).
Proof.
  apply not_negative_cases. destruct x as [| | | a]; cbn [JS.Math_max].
  - exact I.
  - exact I.
  - lra.
  - apply Q.le_max_l.
Qed.

Lemma not_negative_add (x y : number) :
  not_negative x -> not_negative y -> not_negative (x + y).
Proof.
  rewrite !not_negative_cases.
  destruct x as [| | | a], y as [| | | b]; cbn [JS.add]; try tauto.
  intros Ha Hb. lra.
Qed.

Lemma not_negative_scale_inf (q : Q) :
  0 <= q ->
  match JS.scale_inf true q with
  | NaN | PosInf => True
  | NegInf => False
  | Fin a => 0 <= a
  end.
Proof.
  intros Hq. unfold JS.scale_inf.
  destruct (Qcompare_spec q 0) as [H | H | H]; try exact I. lra.
Qed.

Lemma not_negative_mul (x y : number) :
  not_negative x -> not_negative y -> not_negative (x * y).
Proof.
  rewrite !not_negative_cases.
  destruct x as [| | | a], y as [| | | b]; cbn [JS.mul]; try tauto.
  - intros _ Hb. apply not_negative_scale_inf, Hb.
  - intros Ha _. apply not_negative_scale_inf, Ha.
  - intros Ha Hb. apply Qmult_le_0_compat; assumption.
Qed.

Lemma not_negative_div_100 (x : number) :
  not_negative x -> not_negative (x / Fin 100).
Proof.
  rewrite !not_negative_cases.
  destruct x as [| | | a].
  - intros _. exact I.
  - intros _. exact I.
  - contradiction.
  - rewrite div_Fin_100. apply Qdiv_100_nonneg.
Qed.

Lemma not_negative_Fin (q : Q) : 0 <= q -> not_negative (Fin q).
Proof. intros H. apply not_negative_cases, H. Qed.

(** A finite [Math.max(0, x)] is a rational >= 0. *)
Lemma max0_finite_inv (x : number) :
  JS.isFinite (JS.Math_max (Fin 0) x) = true ->
  exists q, JS.Math_max (Fin 0) x = Fin q /\ 0 <= q.
Proof.
  destruct x as [| | | a]; cbn [JS.Math_max JS.isFinite]; try discriminate.
  - intros _. exists 0. split; [reflexivity | lra].
  - intros _. exists (Qmax 0 a). split; [reflexivity | apply Q.le_max_l].
Qed.

(** C3.  For every inputs record, whatever the sign and the magnitude
    of its fields, [orderToBeShipped] and [deliveredOrders] are never
    negative: each is >= 0, or [NaN].  [orderToBeShipped] is >= 0
    whenever totalOrders and cancelledOverCall are finite, and
    [deliveredOrders] is >= 0 whenever orderToBeShipped and
    rtoPercentage are finite. *)
Theorem funnel_counts_never_negative (inputs : CalculatorInputs) :
  let r := compute inputs in
  not_negative (orderToBeShipped r) /\
  not_negative (deliveredOrders r) /\
  (JS.isFinite (totalOrders inputs) = true ->
   JS.isFinite (cancelledOverCall inputs) = true ->
   (orderToBeShipped r >=? Fin 0)%js = true) /\
  (JS.isFinite (orderToBeShipped r) = true ->
   JS.isFinite (rtoPercentage inputs) = true ->
   (deliveredOrders r >=? Fin 0)%js = true).
Proof.
  destruct inputs as [t c p s pc ad gst sh rsh dmg pk misc].
  cbv zeta. unfold compute.
  cbn [orderToBeShipped deliveredOrders totalOrders cancelledOverCall
       rtoPercentage].
  split; [apply not_negative_max0 |]. split; [apply not_negative_max0 |].
  split.
  - intros [a ->]%isFinite_inv [b ->]%isFinite_inv.
    autorewrite with js_fin. apply ge_Fin, Q.le_max_l.
  - intros (q & -> & _)%max0_finite_inv [k ->]%isFinite_inv.
    autorewrite with js_fin. apply ge_Fin, Q.le_max_l.
Qed.

Lemma funnel_counts_never_negative_witness :
  (orderToBeShipped (compute overCancelledInputs) >=? Fin 0)%js = true /\
  (deliveredOrders (compute overCancelledInputs) >=? Fin 0)%js = true.
Proof.
  destruct (funnel_counts_never_negative overCancelledInputs)
    as (_ & _ & Ho & Hd).
  split; [exact (Ho eq_refl eq_refl) | exact (Hd eq_refl eq_refl)].
Defined.

(** A deliveredOrders >= 0 for all finite inputs fails on the program: at
    totalOrders = 1e308, cancelledOverCall = -1e308 the difference
    overflows, orderToBeShipped and rtoCount are Infinity, and
    deliveredOrders is Math.max(0, Infinity - Infinity) = NaN, which is
    not >= 0. *)
Lemma funnel_counts_nonnegative_counterexample :
  let r := Binary64.compute Binary64.overflowingInputs in
  Binary64.orderToBeShipped r = infinity /\
  Binary64.rtoCount r = infinity /\
  is_nan (Binary64.deliveredOrders r) = true /\
  ~ (Binary64.ge (Binary64.orderToBeShipped r) 0 = true /\
     Binary64.ge (Binary64.deliveredOrders r) 0 = true).
Proof.
  vm_compute. repeat split; try reflexivity.
  intros [_ H]. discriminate H.
Qed.

(** 0 <= p <= 100 makes [p] a rational. *)
Lemma percentage_inv (p : number) :
  (p >=? Fin 0)%js = true -> (p <=? Fin 100)%js = true ->
  exists k, p = Fin k /\ 0 <= k <= 100.
Proof.
  destruct p as [| | | k]; try discriminate.
  intros Hlo%ge_Fin Hhi%le_Fin. exists k. split; [reflexivity | lra].
Qed.

(** C10.  For every inputs record with 0 <= rtoPercentage <= 100 and a
    finite orderToBeShipped: 0 <= rtoCount <= orderToBeShipped, and the
    clamp of the deliveredOrders step never takes effect, deliveredOrders
    is orderToBeShipped - rtoCount, with 0 <= deliveredOrders <=
    orderToBeShipped; no shipped order is counted twice. *)
Theorem funnel_split (inputs : CalculatorInputs) :
  JS.isFinite (orderToBeShipped (compute inputs)) = true ->
  (rtoPercentage inputs >=? Fin 0)%js = true ->
  (rtoPercentage inputs <=? Fin 100)%js = true ->
  let r := compute inputs in
  (rtoCount r >=? Fin 0)%js = true /\
  (rtoCount r <=? orderToBeShipped r)%js = true /\
  deliveredOrders r =# (orderToBeShipped r - rtoCount r)%js /\
  (deliveredOrders r >=? Fin 0)%js = true /\
  (deliveredOrders r <=? orderToBeShipped r)%js = true.
Proof.
  destruct inputs as [t c p s pc ad gst sh rsh dmg pk misc].
  cbv zeta. unfold compute.
  cbn [orderToBeShipped rtoCount deliveredOrders rtoPercentage].
  intros (o & -> & Ho)%max0_finite_inv Hlo Hhi.
  destruct (percentage_inv p Hlo Hhi) as (k & -> & Hk).
  autorewrite with js_fin.
  assert (Hq : 0 <= k / 100 <= 1).
  { split.
    - apply Qle_shift_div_l; lra.
    - apply Qle_shift_div_r; lra. }
  set (q := k / 100) in *.
  assert (Hr0 : 0 <= o * q) by (apply Qmult_le_0_compat; tauto).
  assert (Hr1 : o * q <= o) by nra.
  assert (Hd : Qmax 0 (o - o * q) == o - o * q) by (apply Q.max_r; lra).
  rewrite !ge_Fin, !le_Fin. cbn [same_number].
  rewrite Hd. repeat split; lra.
Qed.

Lemma funnel_split_witness :
  (rtoCount (compute fullRtoInputs) <=? orderToBeShipped (compute fullRtoInputs))%js
    = true /\
  deliveredOrders (compute fullRtoInputs) =#
    (orderToBeShipped (compute fullRtoInputs) - rtoCount (compute fullRtoInputs))%js.
Proof.
  destruct (funnel_split fullRtoInputs eq_refl eq_refl eq_refl)
    as (_ & H1 & H2 & _).
  split; [exact H1 | exact H2].
Defined.

(** The exact conservation rtoCount + deliveredOrders = orderToBeShipped
    fails on the program: with totalOrders = 1, cancelledOverCall = 0.1
    and rtoPercentage = 8, which the widgets can
    all produce, orderToBeShipped is 0.9 (the double
    0.90000000000000002), rtoCount 0.072000000000000008, deliveredOrders
    0.82800000000000007, and their sum is 0.90000000000000013. *)
Lemma funnel_conservation_counterexample :
  let r := Binary64.compute Binary64.roundingInputs in
  Binary64.ge (Binary64.rtoPercentage Binary64.roundingInputs) 0 = true /\
  Binary64.ge 100 (Binary64.rtoPercentage Binary64.roundingInputs) = true /\
  Binary64.orderToBeShipped r = 0.90000000000000002%float /\
  (Binary64.rtoCount r + Binary64.deliveredOrders r)%float
    = 0.90000000000000013%float /\
  ~ (PrimFloat.eqb
       (Binary64.rtoCount r + Binary64.deliveredOrders r)%float
       (Binary64.orderToBeShipped r) = true).
Proof.
  vm_compute. repeat split; try reflexivity. discriminate.
Qed.





(** The signs of the results, for inputs that are >= 0 (finite or not). *)
Lemma compute_not_negative (inputs : CalculatorInputs) :
  nonnegative_inputs inputs ->
  Forall not_negative
    ([ orderToBeShipped (compute inputs); rtoCount (compute inputs);
       deliveredOrders (compute inputs); totalRevenue (compute inputs) ]
     ++ components (compute inputs) ++ [ totalExpenses (compute inputs) ]).
Proof.
  intros H.
  pose proof (fun f => or_intror (JS.isNaN (get_field f inputs) = true) (H f))
    as Hnn.
  change (forall f, not_negative (get_field f inputs)) in Hnn.
  destruct inputs as [t c p s pc ad gst sh rsh dmg pk misc].
  pose proof (Hnn F_totalOrders) as Ht.
  pose proof (Hnn F_rtoPercentage) as Hp.
  pose proof (Hnn F_sellingPrice) as Hs.
  pose proof (Hnn F_productCost) as Hpc.
  pose proof (Hnn F_adCostPerOrder) as Had.
  pose proof (Hnn F_adGstPercentage) as Hgst.
  pose proof (Hnn F_shippingCost) as Hsh.
  pose proof (Hnn F_rtoShippingCost) as Hrsh.
  pose proof (Hnn F_productDamageRtoPercentage) as Hdmg.
  pose proof (Hnn F_packingCost) as Hpk.
  pose proof (Hnn F_miscellaneous) as Hmisc.
  cbn [get_field totalOrders rtoPercentage sellingPrice productCost
       adCostPerOrder adGstPercentage shippingCost rtoShippingCost
       productDamageRtoPercentage packingCost miscellaneous] in *.
  unfold compute, components.
  cbn [orderToBeShipped rtoCount deliveredOrders totalRevenue totalProductCost
       totalAdCost totalShippingCost totalRtoShipping totalDamageLoss
       totalPackingCost totalMiscellaneous totalExpenses app].
  repeat (apply List.Forall_cons;
          [repeat first
             [ assumption
             | apply not_negative_max0
             | apply not_negative_div_100
             | apply not_negative_mul
             | apply not_negative_add
             | apply not_negative_Fin; lra ] |]).
  apply List.Forall_nil.
Qed.

(** X2.  When every input is >= 0 (finite or infinite), no result is
    negative: the three funnel counts, the revenue, the seven expense
    components and the total of the expenses are each >= 0, or [NaN]. *)
Theorem nonnegative_inputs_no_negative_result (inputs : CalculatorInputs) :
  nonnegative_inputs inputs ->
  Forall not_negative
    ([ orderToBeShipped (compute inputs); rtoCount (compute inputs);
       deliveredOrders (compute inputs); totalRevenue (compute inputs) ]
     ++ components (compute inputs) ++ [ totalExpenses (compute inputs) ]).
Proof. exact (compute_not_negative inputs). Qed.

Lemma nonnegative_inputs_no_negative_result_witness :
  Forall not_negative
    ([ orderToBeShipped (compute defaultInputs); rtoCount (compute defaultInputs);
       deliveredOrders (compute defaultInputs); totalRevenue (compute defaultInputs) ]
     ++ components (compute defaultInputs)
     ++ [ totalExpenses (compute defaultInputs) ]).
Proof.
  exact (nonnegative_inputs_no_negative_result defaultInputs
           defaultInputs_nonnegative).
Defined.

(** The profit and the guarded margin of a revenue and an expense that
    are not negative. *)
Lemma profit_below_revenue (rev E : number) :
  not_negative rev -> not_negative E ->
  (JS.isNaN (rev - E) = true \/ (rev - E <=? rev)%js = true) /\
  (JS.isNaN (if (rev >? Fin 0)%js
             then ((rev - E) / rev * Fin 100)%js else Fin 0) = true \/
   ((if (rev >? Fin 0)%js
     then ((rev - E) / rev * Fin 100)%js else Fin 0) <=? Fin 100)%js = true).
Proof.
  rewrite !not_negative_cases.
  destruct rev as [| | | r], E as [| | | e]; try contradiction; intros Hr He;
    try (split; [first [left; reflexivity | right; reflexivity]
                | first [left; reflexivity | right; reflexivity]]).
  - (* a finite revenue and no number for the expenses *)
    split; [left; reflexivity |].
    destruct (Fin r >? Fin 0)%js; [left | right]; reflexivity.
  - (* a finite revenue and infinite expenses *)
    split; [right; reflexivity |].
    destruct (Fin r >? Fin 0)%js eqn:Hg; [| right; reflexivity].
    apply gt_Fin in Hg. right.
    cbn [JS.sub JS.neg JS.add JS.div].
    destruct (Qcompare_spec r 0) as [H | H | H]; try lra. reflexivity.
  - (* both finite *)
    autorewrite with js_fin. split; [right; apply le_Fin; lra |].
    destruct (margin_cases (r - e) r) as [[Hg ->] | [Hg ->]];
      right; apply le_Fin; [| lra].
    assert (Hq : (r - e) / r <= 1) by (apply Qle_shift_div_r; lra).
    lra.
Qed.

(** X3.  When every input is >= 0 (finite or infinite), the profit does
    not exceed the revenue and the margin does not exceed 100: netProfit
    is <= totalRevenue, or [NaN], and profitMargin is <= 100, or [NaN]. *)
Theorem profit_never_above_revenue (inputs : CalculatorInputs) :
  nonnegative_inputs inputs ->
  (JS.isNaN (netProfit (compute inputs)) = true \/
   (netProfit (compute inputs) <=? totalRevenue (compute inputs))%js = true) /\
  (JS.isNaN (profitMargin (compute inputs)) = true \/
   (profitMargin (compute inputs) <=? Fin 100)%js = true).
Proof.
  intros Hnn. pose proof (compute_not_negative inputs Hnn) as Hall.
  rewrite List.Forall_forall in Hall.
  assert (Hrev : not_negative (totalRevenue (compute inputs))).
  { apply Hall. cbn [app In]. tauto. }
  assert (HE : not_negative (totalExpenses (compute inputs))).
  { apply Hall. apply in_or_app. right. apply in_or_app. right. left.
    reflexivity. }
  destruct (compute_shape inputs) as [Hnp Hpm].
  rewrite Hpm, Hnp. apply profit_below_revenue; assumption.
Qed.

Lemma profit_never_above_revenue_witness :
  (JS.isNaN (netProfit (compute defaultInputs)) = true \/
   (netProfit (compute defaultInputs) <=? totalRevenue (compute defaultInputs))%js
     = true) /\
  (JS.isNaN (profitMargin (compute defaultInputs)) = true \/
   (profitMargin (compute defaultInputs) <=? Fin 100)%js = true).
Proof.
  exact (profit_never_above_revenue defaultInputs defaultInputs_nonnegative).
Defined.

(** The sign of the margin, over a positive revenue, when the margin is
    a number. *)
Lemma margin_sign (rev E : number) :
  (rev >? Fin 0)%js = true ->
  JS.isNaN ((rev - E) / rev * Fin 100)%js = false ->
  (((rev - E) / rev * Fin 100 >=? Fin 0)%js = true <->
   (rev - E >=? Fin 0)%js = true).
Proof.
  destruct rev as [| | | r]; try discriminate.
  - (* an infinite revenue: the margin is not a number *)
    destruct E as [| | | e]; discriminate.
  - intros Hr%gt_Fin.
    destruct E as [| | | e].
    + discriminate.
    + intros _. cbn [JS.sub JS.neg JS.add JS.div].
      destruct (Qcompare_spec r 0) as [H | H | H]; try lra.
      split; discriminate.
    + intros _. cbn [JS.sub JS.neg JS.add JS.div].
      destruct (Qcompare_spec r 0) as [H | H | H]; try lra.
      split; reflexivity.
    + intros _. rewrite sub_Fin.
      rewrite div_Fin by lra. autorewrite with js_fin.
      rewrite !ge_Fin. split; intros Hs.
      * destruct (Qlt_le_dec (r - e) 0) as [Hneg | Hpos]; [| exact Hpos].
        assert (Hq : (r - e) / r < 0) by (apply Qlt_shift_div_r; lra).
        lra.
      * assert (Hq : 0 <= (r - e) / r) by (apply Qle_shift_div_l; lra).
        lra.
Qed.

(** X4.  For every inputs record with a revenue > 0 and a margin that is
    a number, the margin and the profit have the same sign: the margin
    is >= 0 exactly when the profit is, which is when the profit card and
    the summary bar are indigo rather than red. *)
Theorem margin_sign_follows_profit (inputs : CalculatorInputs) :
  (totalRevenue (compute inputs) >? Fin 0)%js = true ->
  JS.isNaN (profitMargin (compute inputs)) = false ->
  ((profitMargin (compute inputs) >=? Fin 0)%js = true <->
   (netProfit (compute inputs) >=? Fin 0)%js = true) /\
  ((profitMargin (compute inputs) >=? Fin 0)%js = true <->
   profitTone (compute inputs) = Indigo).
Proof.
  unfold profitTone. destruct (compute_shape inputs) as [Hnp Hpm].
  rewrite Hpm, Hnp. intros Hrev. rewrite Hrev. intros Hnan.
  pose proof (margin_sign _ _ Hrev Hnan) as Hiff.
  split; [exact Hiff |]. rewrite Hiff.
  match goal with
  | |- _ <-> (if ?b then _ else _) = _ => destruct b
  end; split; congruence.
Qed.

Lemma margin_sign_follows_profit_witness :
  (profitMargin (compute defaultInputs) >=? Fin 0)%js = true <->
  profitTone (compute defaultInputs) = Indigo.
Proof.
  exact (proj2 (margin_sign_follows_profit defaultInputs eq_refl eq_refl)).
Defined.

(** X6.  For every inputs record with a finite orderToBeShipped, a
    finite rtoPercentage >= 100 and finite sellingPrice and productCost,
    the clamp of [deliveredOrders] is active: nothing is delivered, the
    revenue, the product cost and the margin are 0, and at least every
    shipped order counts as returned. *)
Theorem all_returned_nothing_delivered (inputs : CalculatorInputs) :
  JS.isFinite (orderToBeShipped (compute inputs)) = true ->
  JS.isFinite (rtoPercentage inputs) = true ->
  (rtoPercentage inputs >=? Fin 100)%js = true ->
  JS.isFinite (sellingPrice inputs) = true ->
  JS.isFinite (productCost inputs) = true ->
  let r := compute inputs in
  deliveredOrders r =# Fin 0 /\
  totalRevenue r =# Fin 0 /\
  totalProductCost r =# Fin 0 /\
  profitMargin r = Fin 0 /\
  (rtoCount r >=? orderToBeShipped r)%js = true.
Proof.
  destruct inputs as [t c p s pc ad gst sh rsh dmg pk misc].
  cbv zeta. unfold compute.
  cbn [orderToBeShipped rtoCount deliveredOrders totalRevenue totalProductCost
       profitMargin rtoPercentage sellingPrice productCost].
  intros (o & -> & Ho)%max0_finite_inv [k ->]%isFinite_inv Hk%ge_Fin
         [s' ->]%isFinite_inv [pc' ->]%isFinite_inv.
  autorewrite with js_fin.
  assert (Hq : 1 <= k / 100) by (apply Qle_shift_div_l; lra).
  set (q := k / 100) in *.
  assert (Hr : o <= o * q) by nra.
  assert (Hd : Qmax 0 (o - o * q) == 0) by (apply Q.max_l; lra).
  repeat split.
  - exact Hd.
  - cbn [same_number]. rewrite Hd. ring.
  - cbn [same_number]. rewrite Hd. ring.
  - match goal with
    | |- (if (Fin ?rev >? Fin 0)%js then _ else _) = _ =>
        assert (Hrev : (Fin rev >? Fin 0)%js = false)
          by (apply gt_Fin_false; rewrite Hd; lra);
        rewrite Hrev
    end.
    reflexivity.
  - apply ge_Fin, Hr.
Qed.

Lemma all_returned_nothing_delivered_witness :
  deliveredOrders (compute fullRtoInputs) =# Fin 0 /\
  totalRevenue (compute fullRtoInputs) =# Fin 0 /\
  totalProductCost (compute fullRtoInputs) =# Fin 0 /\
  profitMargin (compute fullRtoInputs) = Fin 0 /\
  (rtoCount (compute fullRtoInputs) >=? orderToBeShipped (compute fullRtoInputs))%js
    = true.
Proof.
  exact (all_returned_nothing_delivered fullRtoInputs
           eq_refl eq_refl eq_refl eq_refl eq_refl).
Defined.

(** The width of the bar of a value > 0, from the guarded share of the
    revenue. *)
Lemma barWidth_cases (v rev : number) :
  (v >? Fin 0)%js = true ->
  let pct :=
    if (rev >? Fin 0)%js then (v / rev * Fin 100)%js else Fin 0 in
  let w := JS.Math_min (Fin 100) (pct * Fin 2) in
  (JS.isNaN w = true \/
   ((w >=? Fin 0)%js = true /\ (w <=? Fin 100)%js = true)) /\
  (JS.isFinite rev = true ->
   (w >=? Fin 0)%js = true /\ (w <=? Fin 100)%js = true /\
   (w =# Fin 100 <-> (pct >=? Fin 50)%js = true)).
Proof.
  intros Hv. cbv zeta.
  assert (Hzero :
    let w := JS.Math_min (Fin 100) (Fin 0 * Fin 2) in
    (w >=? Fin 0)%js = true /\ (w <=? Fin 100)%js = true /\
    (w =# Fin 100 <-> (Fin 0 >=? Fin 50)%js = true)).
  { vm_compute. repeat split; try reflexivity; discriminate. }
  cbv zeta in Hzero.
  destruct rev as [| | | R].
  - (* no revenue to compare with: the share is 0 *)
    split; [right; split; apply Hzero | discriminate].
  - (* an infinite revenue *)
    split; [| discriminate].
    destruct v as [| | | a]; try discriminate.
    + left. reflexivity.
    + right. split; reflexivity.
  - split; [right; split; apply Hzero | discriminate].
  - destruct (Fin R >? Fin 0)%js eqn:Hg.
    + apply gt_Fin in Hg.
      destruct v as [| | | a]; try discriminate.
      * (* an infinite value over a finite revenue: a full bar *)
        cbn [JS.div].
        destruct (Qcompare_spec R 0) as [H | H | H]; try lra.
        split; [right; split; reflexivity |].
        intros _. repeat split; reflexivity.
      * apply gt_Fin in Hv. rewrite div_Fin by lra.
        autorewrite with js_fin. cbn [JS.Math_min].
        assert (Hq : 0 < a / R) by (apply Qlt_shift_div_l; lra).
        set (x := a / R) in *.
        assert (Hw : 0 <= Qmin 100 (x * 100 * 2) <= 100).
        { split; [apply Q.min_glb; lra | apply Q.le_min_l]. }
        split; [right; rewrite ge_Fin, le_Fin; exact Hw |].
        intros _. rewrite !ge_Fin, le_Fin. cbn [same_number].
        split; [apply Hw |]. split; [apply Hw |].
        destruct (Q.min_spec 100 (x * 100 * 2)) as [[Hlt Hm] | [Hle Hm]];
          rewrite Hm; lra.
    + split; [right; split; apply Hzero |]. intros _. exact Hzero.
Qed.

(** X13.  For every results record, the bar of an entry of the detailed
    breakdown never leaves its track: its width is between 0 and 100
    percent, or [NaN]; when the revenue is finite the width is between 0
    and 100, and is 100 exactly when the entry takes half of the revenue
    or more. *)
Theorem barWidth_never_outside_track (r : CalculatedResults) :
  Forall
    (fun d =>
       (JS.isNaN (barWidth d) = true \/
        ((barWidth d >=? Fin 0)%js = true /\
         (barWidth d <=? Fin 100)%js = true)) /\
       (JS.isFinite (totalRevenue r) = true ->
        (barWidth d >=? Fin 0)%js = true /\
        (barWidth d <=? Fin 100)%js = true /\
        (barWidth d =# Fin 100 <->
         (percentageOfRevenue d >=? Fin 50)%js = true)))
    (distribute r).
Proof.
  apply List.Forall_forall. intros d Hd.
  destruct (In_distribute_value _ _ Hd) as [_ Hpos].
  destruct (In_distribute_shares _ _ Hd) as [Hrev _].
  unfold barWidth. rewrite Hrev.
  exact (barWidth_cases (value d) (totalRevenue r) Hpos).
Qed.

Lemma barWidth_never_outside_track_witness :
  Forall
    (fun d =>
       (barWidth d >=? Fin 0)%js = true /\ (barWidth d <=? Fin 100)%js = true)
    (distribute (compute defaultInputs)).
Proof.
  pose proof (barWidth_never_outside_track (compute defaultInputs)) as H.
  apply (List.Forall_impl _ (fun d Hd => conj (proj1 (proj2 Hd eq_refl))
                                           (proj1 (proj2 (proj2 Hd eq_refl))))
           H).
Defined.

(** X16.  On the natural numbers below 2^53, where adding and
    subtracting 1 is exact, the two buttons of the counter undo each
    other: plus then minus gives totalOrders back, and so does minus then
    plus from 1 or more.  The other fields are not touched. *)
Theorem counter_round_trip_natural (inputs : CalculatorInputs) (n : nat) :
  (Z.of_nat n < 2 ^ 53)%Z ->
  totalOrders inputs =# Fin (inject_Z (Z.of_nat n)) ->
  totalOrders (step (step inputs Plus) Minus) =# totalOrders inputs /\
  ((1 <= n)%nat ->
   totalOrders (step (step inputs Minus) Plus) =# totalOrders inputs) /\
  (forall g, g <> F_totalOrders ->
     get_field g (step (step inputs Plus) Minus) = get_field g inputs /\
     get_field g (step (step inputs Minus) Plus) = get_field g inputs).
Proof.
  intros _ Hn. cbn [step]. unfold handleInputChange.
  rewrite !totalOrders_set_field.
  destruct (totalOrders inputs) as [| | | q]; cbn [same_number] in Hn;
    try contradiction.
  pose proof (inject_nat_nonneg n) as H0.
  autorewrite with js_fin. cbn [same_number].
  split; [| split].
  - rewrite Q.max_r by lra. ring.
  - intros H1. destruct n as [| m]; [lia |].
    rewrite inject_nat_succ in Hn. pose proof (inject_nat_nonneg m).
    rewrite Q.max_r by lra. ring.
  - intros g Hg. rewrite !get_set_field_ne by exact Hg. split; reflexivity.
Qed.

Lemma counter_round_trip_natural_witness :
  totalOrders (step (step defaultInputs Plus) Minus) =# totalOrders defaultInputs /\
  totalOrders (step (step defaultInputs Minus) Plus) =# totalOrders defaultInputs.
Proof.
  destruct (counter_round_trip_natural defaultInputs 10 eq_refl eq_refl)
    as (H1 & H2 & _).
  split; [exact H1 | apply H2; repeat constructor].
Defined.

(** X20.  For real inputs that are all >= 0, as long as the profit is a
    number before and after, the profit grows with the selling price and
    shrinks with every cost: putting a larger real number in sellingPrice
    does not lower netProfit, and putting a larger one in a cost field
    (product, advertising and its tax, forward and return shipping,
    damage rate, packing, miscellaneous) does not raise it. *)
Theorem profit_monotone_when_defined (inputs : CalculatorInputs)
    (field : Field) (v : Q) :
  finite_inputs inputs ->
  nonnegative_inputs inputs ->
  (Fin v >=? get_field field inputs)%js = true ->
  JS.isNaN (netProfit (compute inputs)) = false ->
  JS.isNaN (netProfit (compute (set_field field (Fin v) inputs))) = false ->
  (field = F_sellingPrice ->
   (netProfit (compute (set_field field (Fin v) inputs))
    >=? netProfit (compute inputs))%js = true) /\
  (is_cost field = true ->
   (netProfit (compute (set_field field (Fin v) inputs))
    <=? netProfit (compute inputs))%js = true).
Proof.
  intros H. fin_inputs H. intros Hnn.
  apply nonnegative_Fin_inv in Hnn.
  destruct Hnn as ((Ht & Hc & Hp & Hs) & (Hpc & Had & Hgst & Hsh)
                   & (Hrsh & Hdmg & Hpk & Hmisc)).
  assert (Ho : 0 <= Qmax 0 (t - c)) by apply Q.le_max_l.
  assert (Hk : 0 <= p / 100) by nonneg.
  assert (Hg : 0 <= gst / 100) by nonneg.
  assert (Hm : 0 <= dmg / 100) by nonneg.
  assert (Hd : 0 <= Qmax 0 (Qmax 0 (t - c) - Qmax 0 (t - c) * (p / 100)))
    by apply Q.le_max_l.
  assert (Hok : 0 <= Qmax 0 (t - c) * (p / 100)) by nonneg.
  assert (Hokm : 0 <= Qmax 0 (t - c) * (p / 100) * (dmg / 100)) by nonneg.
  assert (Hokp : 0 <= Qmax 0 (t - c) * (p / 100) * pc) by nonneg.
  assert (Htg : 0 <= t * (1 + gst / 100)) by nonneg.
  assert (Hta : 0 <= t * ad) by nonneg.
  destruct field; cbn [get_field totalOrders cancelledOverCall rtoPercentage
    sellingPrice productCost adCostPerOrder adGstPercentage shippingCost
    rtoShippingCost productDamageRtoPercentage packingCost miscellaneous
    is_cost]; intros Hv%ge_Fin _ _;
    (split; [intros [=] | intros [=]]);
    eval_set_field; compute_fin; rewrite ?ge_Fin, ?le_Fin;
    assert (Hgv : 0 <= v / 100) by nonneg;
    try assert (Hgst' : gst / 100 <= v / 100) by (apply Qdiv_100_le, Hv);
    try assert (Hdmg' : dmg / 100 <= v / 100) by (apply Qdiv_100_le, Hv);
    set (o := Qmax 0 (t - c)) in *; set (k := p / 100) in *;
    set (d := Qmax 0 (o - o * k)) in *;
    nra.
Qed.

Lemma profit_monotone_when_defined_witness :
  (netProfit (compute (set_field F_sellingPrice (Fin 650) defaultInputs))
   >=? netProfit (compute defaultInputs))%js = true.
Proof.
  exact (proj1 (profit_monotone_when_defined defaultInputs F_sellingPrice 650
                  defaultInputs_finite defaultInputs_nonnegative
                  eq_refl eq_refl eq_refl)
           eq_refl).
Defined.

(** What remains true at the three inputs above, in binary64: the
    counts that overflow are Infinity or [NaN], never negative; the
    funnel that does not add up still has rtoCount <= orderToBeShipped
    and deliveredOrders = orderToBeShipped - rtoCount; the shares of an
    infinite total are all within 0 and 100. *)
Example surviving_statements_in_binary64 :
  (let r := Binary64.compute Binary64.overflowingInputs in
   Binary64.ge (Binary64.orderToBeShipped r) 0 = true /\
   is_nan (Binary64.deliveredOrders r) = true) /\
  (let r := Binary64.compute Binary64.roundingInputs in
   Binary64.ge (Binary64.rtoCount r) 0 = true /\
   Binary64.ge (Binary64.orderToBeShipped r) (Binary64.rtoCount r) = true /\
   Binary64.deliveredOrders r
   = (Binary64.orderToBeShipped r - Binary64.rtoCount r)%float /\
   Binary64.ge (Binary64.orderToBeShipped r) (Binary64.deliveredOrders r)
   = true) /\
  (let r := Binary64.compute Binary64.hugeExpensesInputs in
   map Binary64.name (Binary64.distribute r)
   = ["Product"; "Ads"; "Forward Shipping"; "RTO Shipping"; "Packing";
      "RTO Loss"; "Misc"] /\
   forallb (fun d => Binary64.ge (Binary64.percentageOfExpenses d) 0
                     && Binary64.ge 100 (Binary64.percentageOfExpenses d))%bool
     (Binary64.distribute r) = true).
Proof. vm_compute. repeat split; reflexivity. Qed.

(** On the default inputs the program, in binary64, returns the values
    of scenario A, with the margin rounded to 48.944444444444443. *)
Example binary64_defaults :
  Binary64.compute Binary64.defaultInputs =
  {| Binary64.orderToBeShipped := 10;
     Binary64.rtoCount := 1;
     Binary64.deliveredOrders := 9;
     Binary64.totalRevenue := 5400;
     Binary64.totalProductCost := 900;
     Binary64.totalAdCost := 1180;
     Binary64.totalShippingCost := 500;
     Binary64.totalRtoShipping := 72;
     Binary64.totalDamageLoss := 0;
     Binary64.totalPackingCost := 100;
     Binary64.totalMiscellaneous := 5;
     Binary64.totalExpenses := 2757;
     Binary64.netProfit := 2643;
     Binary64.profitMargin := 48.944444444444443 |}.
Proof. vm_compute. reflexivity. Qed.
